(** * django-inspectional-registration: the registration workflow

    A shallow embedding of [registration/models.py]: the
    [RegistrationProfile] entity (status property, expiry predicate) and
    the [RegistrationManager] operations (register, accept, reject,
    activate, and the two maintenance sweeps), over an explicit store of
    user and profile rows.

    Modelling conventions.
    - A model instance is its row; the primary key travels next to it
      ([pk], resp. [user_id self] for the related user).  [self.user] is a
      lookup in the user table and raises when the row is missing.
    - [datetime] values are integers counting microseconds, and
      [timedelta(days=n)] is [n] days in that unit; a call of an operation
      reads the clock once ([now]).
    - Errors are Python exceptions.  A raise keeps the store as it is at
      that point; [transaction_atomic] rolls the tables back.
    - What lives outside this module (settings, the key and password
      generators, the clock) is gathered in the record [Env]; mail handed
      to the mailer is appended to the store's outbox. *)

From stdpp Require Import gmap strings list fin_maps relations.
From Stdlib Require Import ZArith.

Local Open Scope Z_scope.

(** ** Data model *)

(** [django.contrib.auth] stores a hash; [set_unusable_password] stores a
    marker no raw password matches. *)
Inductive Password :=
  | UnusablePassword
  | RawPassword (raw : string).

Record User := mkUser {
  username : string;
  email : string;
  password : Password;
  is_active : bool;
  date_joined : Z
}.

Record RegistrationProfile := mkProfile {
  user_id : positive;
  _status : string;
  activation_key : option string
}.

Definition STATUS_LIST : list (string * string) :=
  [ ("untreated", "Approval needed");
    ("accepted", "Waiting for user confirmation");
    ("rejected", "Rejected") ].

(** Values of the template context that [extra_context] carries. *)
Inductive CtxVal :=
  | VNone
  | VStr (s : string)
  | VBool (b : bool)
  | VInt (z : Z).

Record Mail := mkMail {
  mail_action : string;
  mail_site : string;
  mail_from : string;
  mail_to : string;
  mail_extra : list (string * CtxVal)
}.

Record Store := mkStore {
  users : gmap positive User;
  profiles : gmap positive RegistrationProfile;
  outbox : list Mail
}.

Definition empty_store : Store := mkStore ∅ ∅ [].

#[global] Instance Password_eq_dec : EqDecision Password.
Proof. solve_decision. Defined.
#[global] Instance User_eq_dec : EqDecision User.
Proof. solve_decision. Defined.
#[global] Instance RegistrationProfile_eq_dec : EqDecision RegistrationProfile.
Proof. solve_decision. Defined.

(** Attribute assignment on an instance. *)
Definition with_status (v : string) (p : RegistrationProfile) : RegistrationProfile :=
  mkProfile (user_id p) v (activation_key p).
Definition with_activation_key (k : option string) (p : RegistrationProfile) : RegistrationProfile :=
  mkProfile (user_id p) (_status p) k.
Definition with_date_joined (t : Z) (u : User) : User :=
  mkUser (username u) (email u) (password u) (is_active u) t.
Definition with_is_active (b : bool) (u : User) : User :=
  mkUser (username u) (email u) (password u) b (date_joined u).
Definition with_password (pw : Password) (u : User) : User :=
  mkUser (username u) (email u) pw (is_active u) (date_joined u).

(** Python truth value of [None] or a string: only a non-empty string is
    true. *)
Definition truthy (o : option string) : bool :=
  match o with
  | None => false
  | Some s => bool_decide (s ≠ "")
  end.

(** [None if o is None else o] for a context entry. *)
Definition ctx_of_option (o : option string) : CtxVal :=
  match o with
  | None => VNone
  | Some s => VStr s
  end.

(** ** Exceptions and the store monad *)

Inductive Exn :=
  | UserDoesNotExist
  | ProfileDoesNotExist
  | MultipleObjectsReturned
  | IntegrityError.

#[global] Instance Exn_eq_dec : EqDecision Exn.
Proof. solve_decision. Defined.

(** [Model.DoesNotExist] of every model derives from
    [ObjectDoesNotExist]. *)
Definition ObjectDoesNotExist (e : Exn) : bool :=
  match e with
  | UserDoesNotExist | ProfileDoesNotExist => true
  | _ => false
  end.

(** [self.model.DoesNotExist] inside [RegistrationManager]. *)
Definition model_DoesNotExist (e : Exn) : bool :=
  match e with
  | ProfileDoesNotExist => true
  | _ => false
  end.

Inductive Result (A : Type) :=
  | Ok (a : A)
  | Raise (e : Exn).
Arguments Ok {A} a.
Arguments Raise {A} e.

Definition M (A : Type) : Type := Store → Result A * Store.

Definition ret {A} (a : A) : M A := λ s, (Ok a, s).
Definition raise {A} (e : Exn) : M A := λ s, (Raise e, s).
Definition bind {A B} (m : M A) (k : A → M B) : M B :=
  λ s, match m s with
       | (Ok a, s') => k a s'
       | (Raise e, s') => (Raise e, s')
       end.

#[global] Instance M_ret : MRet M := @ret.
#[global] Instance M_bind : MBind M := λ A B k m, bind m k.

(** [try: body except E: handler], for the exceptions [catches] selects. *)
Definition try_except {A} (body : M A) (catches : Exn → bool) (handler : M A) : M A :=
  λ s, match body s with
       | (Raise e, s') => if catches e then handler s' else (Raise e, s')
       | r => r
       end.

(** [@transaction_atomic]: an exception that leaves the block rolls the
    tables back to their state at entry; mail already handed to the
    mailer stays sent. *)
Definition transaction_atomic {A} (m : M A) : M A :=
  λ s, match m s with
       | (Raise e, s') => (Raise e, mkStore (users s) (profiles s) (outbox s'))
       | r => r
       end.

(** [for x in l: body(x)] *)
Fixpoint for_each {A} (l : list A) (body : A → M unit) : M unit :=
  match l with
  | [] => ret tt
  | x :: l' => body x;; for_each l' body
  end.

(** *** Persistence primitives (the object-relational mapper) *)

(** [user.save()] *)
Definition save_user (uid : positive) (u : User) : M unit :=
  λ s, (Ok tt, mkStore (<[uid := u]> (users s)) (profiles s) (outbox s)).

(** [user.delete()] *)
Definition delete_user (uid : positive) : M unit :=
  λ s, (Ok tt, mkStore (delete uid (users s)) (profiles s) (outbox s)).

(** [profile.save()] *)
Definition save_profile (pk : positive) (p : RegistrationProfile) : M unit :=
  λ s, (Ok tt, mkStore (users s) (<[pk := p]> (profiles s)) (outbox s)).

(** [profile.delete()] *)
Definition delete_profile (pk : positive) : M unit :=
  λ s, (Ok tt, mkStore (users s) (delete pk (profiles s)) (outbox s)).

(** [self.user]: the related row, or [User.DoesNotExist]. *)
Definition get_user (self : RegistrationProfile) : M User :=
  λ s, match users s !! user_id self with
       | Some u => (Ok u, s)
       | None => (Raise UserDoesNotExist, s)
       end.

(** [self.all()] *)
Definition objects_all : M (list (positive * RegistrationProfile)) :=
  λ s, (Ok (map_to_list (profiles s)), s).

(** The rows [self.get(_status='accepted', activation_key=key)] selects. *)
Definition accepted_with_key (key : string)
    (m : gmap positive RegistrationProfile) : gmap positive RegistrationProfile :=
  filter (λ kp, _status kp.2 = "accepted" ∧ activation_key kp.2 = Some key) m.

(** [self.get(...)]: exactly one row, else [DoesNotExist] or
    [MultipleObjectsReturned]. *)
Definition objects_get (key : string) : M (positive * RegistrationProfile) :=
  λ s, match map_to_list (accepted_with_key key (profiles s)) with
       | [] => (Raise ProfileDoesNotExist, s)
       | [row] => (Ok row, s)
       | _ => (Raise MultipleObjectsReturned, s)
       end.

(** [User.objects.create_user(username, email, password)]: user names are
    unique; a new user is active and joined now.  Name and address are
    stored as given: what the auth application does to them before it
    stores them is its own and is not modelled. *)
Definition create_user (name mail raw : string) (now : Z) : M (positive * User) :=
  λ s, if decide (map_Exists (λ _ u, username u = name) (users s))
       then (Raise IntegrityError, s)
       else let uid := fresh (dom (users s)) in
            let u := mkUser name mail (RawPassword raw) true now in
            (Ok (uid, u), mkStore (<[uid := u]> (users s)) (profiles s) (outbox s)).

(** [self.create(user=new_user)]: the one-to-one column is unique; the
    other fields take their defaults. *)
Definition objects_create (uid : positive) : M (positive * RegistrationProfile) :=
  λ s, if decide (map_Exists (λ _ p, user_id p = uid) (profiles s))
       then (Raise IntegrityError, s)
       else let pk := fresh (dom (profiles s)) in
            let p := mkProfile uid "untreated" None in
            (Ok (pk, p), mkStore (users s) (<[pk := p]> (profiles s)) (outbox s)).

(** [send_mail(subject, message, from, [to])], after the templates are
    rendered from the context. *)
Definition send_mail (m : Mail) : M unit :=
  λ s, (Ok tt, mkStore (users s) (profiles s) (outbox s ++ [m])).

(** [datetime.timedelta(days=n)] in microseconds. *)
Definition timedelta (days : Z) : Z := days * 86400000000.

(** [registration.conf.settings] *)
Record Settings := mkSettings {
  ACCOUNT_ACTIVATION_DAYS : Z;
  REGISTRATION_DEFAULT_PASSWORD_LENGTH : Z;
  DEFAULT_FROM_EMAIL : string
}.

(** What a running operation takes from outside this module: the
    settings, the generators of [registration.utils] and the clock of
    [registration.compat].  Both generators draw on a random source; an
    operation calls each at most once, so a function stands for one draw. *)
Record Env := mkEnv {
  settings : Settings;
  generate_activation_key : string → string;
  generate_random_password : Z → string;
  datetime_now : Z
}.

Section Workflow.

Variable env : Env.

(** ** RegistrationProfile *)

(** [RegistrationProfile.activation_key_expired] *)
Definition activation_key_expired (self : RegistrationProfile) : M bool :=
  if decide (_status self ≠ "accepted") then mret false
  else
    let expiration_date := timedelta (ACCOUNT_ACTIVATION_DAYS (settings env)) in
    user ← get_user self;
    let expired := bool_decide (date_joined user + expiration_date ≤ datetime_now env) in
    mret expired.

(** [RegistrationProfile._get_status] *)
Definition _get_status (self : RegistrationProfile) : M string :=
  expired ← activation_key_expired self;
  if expired : bool then mret "expired" else mret (_status self).

(** [RegistrationProfile._set_status]; the assigned instance is the
    result. *)
Definition _set_status (self : RegistrationProfile) (value : string) : M RegistrationProfile :=
  let self := with_status value self in
  if bool_decide (value = "accepted") && negb (truthy (activation_key self)) then
    user ← get_user self;
    let self := with_activation_key (Some (generate_activation_key env (username user))) self in
    save_user (user_id self) (with_date_joined (datetime_now env) user);;
    mret self
  else if bool_decide (value ≠ "accepted") && truthy (activation_key self) then
    mret (with_activation_key None self)
  else mret self.

(** [RegistrationProfile._send_email] *)
Definition _send_email (self : RegistrationProfile) (site action : string)
    (extra_context : list (string * CtxVal)) : M unit :=
  user ← get_user self;
  send_mail (mkMail action site (DEFAULT_FROM_EMAIL (settings env)) (email user) extra_context).

Definition send_registration_email (self : RegistrationProfile) (site : string) : M unit :=
  _send_email self site "registration" [].

Definition send_acceptance_email (self : RegistrationProfile) (site : string)
    (message : option string) : M unit :=
  _send_email self site "acceptance"
    [ ("activation_key", ctx_of_option (activation_key self));
      ("expiration_days", VInt (ACCOUNT_ACTIVATION_DAYS (settings env)));
      ("message", ctx_of_option message) ].

Definition send_rejection_email (self : RegistrationProfile) (site : string)
    (message : option string) : M unit :=
  _send_email self site "rejection" [ ("message", ctx_of_option message) ].

Definition send_activation_email (self : RegistrationProfile) (site : string)
    (password : string) (is_generated : bool) (message : option string) : M unit :=
  _send_email self site "activation"
    [ ("password", VStr password);
      ("is_generated", VBool is_generated);
      ("message", ctx_of_option message) ].

(** ** RegistrationManager *)

(** [RegistrationManager.register] *)
Definition register (name mail site : string) (send_email : bool) : M (positive * User) :=
  transaction_atomic (
    '(uid, new_user) ← create_user name mail "password" (datetime_now env);
    let new_user := with_password UnusablePassword new_user in
    let new_user := with_is_active false new_user in
    save_user uid new_user;;
    '(pk, profile) ← objects_create uid;
    (if send_email then send_registration_email profile site else mret tt);;
    mret (uid, new_user)).

(** [RegistrationManager.accept_registration]; the result is the returned
    user (or [None]) and the instance as the call leaves it. *)
Definition accept_registration (pk : positive) (profile : RegistrationProfile)
    (site : string) (send_email : bool) (message : option string) (force : bool)
    : M (option User * RegistrationProfile) :=
  transaction_atomic (
    allowed ← (if force then mret true
               else status ← _get_status profile;
                    mret (bool_decide (status ∈ ["untreated"; "rejected"])));
    if allowed : bool then
      let profile := if force then with_activation_key None profile else profile in
      profile ← _set_status profile "accepted";
      save_profile pk profile;;
      (if send_email then send_acceptance_email profile site message else mret tt);;
      user ← get_user profile;
      mret (Some user, profile)
    else mret (None, profile)).

(** [RegistrationManager.reject_registration] *)
Definition reject_registration (pk : positive) (profile : RegistrationProfile)
    (site : string) (send_email : bool) (message : option string)
    : M (option User * RegistrationProfile) :=
  transaction_atomic (
    status ← _get_status profile;
    if bool_decide (status = "untreated") then
      profile ← _set_status profile "rejected";
      save_profile pk profile;;
      (if send_email then send_rejection_email profile site message else mret tt);;
      user ← get_user profile;
      mret (Some user, profile)
    else mret (None, profile)).

(** [RegistrationManager.activate_user] *)
Definition activate_user (activation_key : string) (site : string)
    (password : option string) (send_email : bool) (message : option string)
    (no_profile_delete : bool) : M (option (User * string * bool)) :=
  transaction_atomic (
    found ← try_except (row ← objects_get activation_key; mret (Some row))
              model_DoesNotExist (mret None);
    match found with
    | None => mret None
    | Some (pk, profile) =>
      expired ← activation_key_expired profile;
      if negb expired then
        let is_generated := bool_decide (password = None) in
        let password :=
          if truthy password then default "" password
          else generate_random_password env
                 (REGISTRATION_DEFAULT_PASSWORD_LENGTH (settings env)) in
        user ← get_user profile;
        let user := with_password (RawPassword password) user in
        let user := with_is_active true user in
        save_user (user_id profile) user;;
        (if send_email
         then send_activation_email profile site password is_generated message
         else mret tt);;
        (if negb no_profile_delete then delete_profile pk else mret tt);;
        mret (Some (user, password, is_generated))
      else mret None
    end).

(** The body both sweeps share. *)
Definition delete_inactive (pk : positive) (profile : RegistrationProfile) : M unit :=
  try_except
    (user ← get_user profile;
     if negb (is_active user) then
       delete_user (user_id profile);;
       delete_profile pk
     else mret tt)
    ObjectDoesNotExist
    (delete_profile pk).

(** The loop body of [delete_expired_users]. *)
Definition delete_expired_users_body (row : positive * RegistrationProfile) : M unit :=
  let '(pk, profile) := row in
  expired ← activation_key_expired profile;
  if expired : bool then delete_inactive pk profile else mret tt.

(** [RegistrationManager.delete_expired_users] *)
Definition delete_expired_users : M unit :=
  transaction_atomic (
    all ← objects_all;
    for_each all delete_expired_users_body).

(** The loop body of [delete_rejected_users]. *)
Definition delete_rejected_users_body (row : positive * RegistrationProfile) : M unit :=
  let '(pk, profile) := row in
  status ← _get_status profile;
  if bool_decide (status = "rejected") then delete_inactive pk profile else mret tt.

(** [RegistrationManager.delete_rejected_users] *)
Definition delete_rejected_users : M unit :=
  transaction_atomic (
    all ← objects_all;
    for_each all delete_rejected_users_body).

End Workflow.


(** ** Specification vocabulary *)

(** The value the status column may hold. *)
Definition valid_status (s : string) : Prop := s ∈ STATUS_LIST.*1.

(** Join time plus the activation window is not after now. *)
Definition window_closed (env : Env) (u : User) : Prop :=
  date_joined u + timedelta (ACCOUNT_ACTIVATION_DAYS (settings env)) ≤ datetime_now env.

#[global] Instance window_closed_dec env u : Decision (window_closed env u).
Proof. unfold window_closed. apply _. Defined.

(** The key is present exactly on an accepted profile. *)
Definition key_iff_accepted (p : RegistrationProfile) : Prop :=
  activation_key p ≠ None ↔ _status p = "accepted".

Definition store_inv (s : Store) : Prop :=
  ∀ pk p, profiles s !! pk = Some p → key_iff_accepted p.

(** The user column of the profile table is unique. *)
Definition one_to_one (s : Store) : Prop :=
  ∀ pk1 pk2 p1 p2,
    profiles s !! pk1 = Some p1 → profiles s !! pk2 = Some p2 →
    user_id p1 = user_id p2 → pk1 = pk2.

(** The row [_set_status] leaves when the value is not 'accepted': a
    true key is cleared. *)
Definition cleared (value : string) (self : RegistrationProfile) : RegistrationProfile :=
  mkProfile (user_id self) value
    (if truthy (activation_key self) then None else activation_key self).

(** The row and the user [_set_status] leaves when it generates a key. *)
Definition keyed (env : Env) (self : RegistrationProfile) (u : User) : RegistrationProfile :=
  mkProfile (user_id self) "accepted"
    (Some (generate_activation_key env (username u))).

Definition stamped (env : Env) (self : RegistrationProfile) (u : User) (s : Store) : Store :=
  mkStore (<[user_id self := with_date_joined (datetime_now env) u]> (users s))
    (profiles s) (outbox s).

(** [pk] is the one row with accepted status and this key. *)
Definition sole_match (key : string) (s : Store) (pk : positive)
    (profile : RegistrationProfile) : Prop :=
  profiles s !! pk = Some profile ∧
  _status profile = "accepted" ∧
  activation_key profile = Some key ∧
  ∀ pk' p', profiles s !! pk' = Some p' →
    _status p' = "accepted" → activation_key p' = Some key → pk' = pk.

(** No row has accepted status and this key. *)
Definition no_match (key : string) (s : Store) : Prop :=
  ∀ pk p, profiles s !! pk = Some p →
    ¬ (_status p = "accepted" ∧ activation_key p = Some key).

(** The password [activate_user] sets: the supplied one when it is true,
    else a generated one. *)
Definition chosen_password (env : Env) (password : option string) : string :=
  if truthy password then default "" password
  else generate_random_password env (REGISTRATION_DEFAULT_PASSWORD_LENGTH (settings env)).

Definition activated (env : Env) (password : option string) (u : User) : User :=
  with_is_active true (with_password (RawPassword (chosen_password env password)) u).

(** The profile's key has expired and its account is inactive. *)
Definition expired_inactive (env : Env) (s : Store) (p : RegistrationProfile) : Prop :=
  _status p = "accepted" ∧
  ∃ u, users s !! user_id p = Some u ∧ window_closed env u ∧ is_active u = false.

(** The store after [user.delete(); profile.delete()]. *)
Definition swept (pk : positive) (p : RegistrationProfile) (s : Store) : Store :=
  mkStore (delete (user_id p) (users s)) (delete pk (profiles s)) (outbox s).

(** One manager operation, with any arguments, clock reading and
    generator draws; accept and reject act on a profile as the table
    holds it.  A call that raises is a step too (to the rolled-back
    store). *)
Inductive step : Store → Store → Prop :=
  | step_register env name mail site send_email s r s' :
      register env name mail site send_email s = (r, s') → step s s'
  | step_accept env pk profile site send_email message force s r s' :
      profiles s !! pk = Some profile →
      accept_registration env pk profile site send_email message force s = (r, s') →
      step s s'
  | step_reject env pk profile site send_email message s r s' :
      profiles s !! pk = Some profile →
      reject_registration env pk profile site send_email message s = (r, s') →
      step s s'
  | step_activate env key site password send_email message no_profile_delete s r s' :
      activate_user env key site password send_email message no_profile_delete s = (r, s') →
      step s s'
  | step_delete_expired env s r s' :
      delete_expired_users env s = (r, s') → step s s'
  | step_delete_rejected env s r s' :
      delete_rejected_users env s = (r, s') → step s s'.

(** The stores the manager operations can produce from the empty one. *)
Definition reachable (s : Store) : Prop := rtc step empty_store s.

(** ** Further vocabulary *)

(** [dict(sl)]: a later pair replaces an earlier one with the same key. *)
Definition dict (sl : list (string * string)) : gmap string string :=
  foldl (λ m kv, <[kv.1 := kv.2]> m) ∅ sl.

(** [RegistrationProfile.get_status_display] *)
Definition get_status_display (env : Env) (self : RegistrationProfile) : M (option string) :=
  let sl := STATUS_LIST in
  let sl := sl ++ [("expired", "Activation key has expired")] in
  let sl := dict sl in
  status ← _get_status env self;
  mret (sl !! status).

(** Every profile's account row exists. *)
Definition no_orphans (s : Store) : Prop :=
  ∀ pk p, profiles s !! pk = Some p → is_Some (users s !! user_id p).

(** Every accepted profile's account row exists. *)
Definition accepted_have_accounts (s : Store) : Prop :=
  ∀ pk p, profiles s !! pk = Some p → _status p = "accepted" →
    is_Some (users s !! user_id p).

Definition statuses_valid (s : Store) : Prop :=
  ∀ pk p, profiles s !! pk = Some p → valid_status (_status p).

Definition well_formed (s : Store) : Prop :=
  one_to_one s ∧ no_orphans s ∧ statuses_valid s.

(** The profile is rejected and its account is inactive or missing. *)
Definition rejected_inactive (s : Store) (p : RegistrationProfile) : Prop :=
  _status p = "rejected" ∧
  ∀ u, users s !! user_id p = Some u → is_active u = false.

(** The instance and the user an allowed acceptance leaves. *)
Definition accept_profile (env : Env) (force : bool) (profile : RegistrationProfile)
    (u : User) : RegistrationProfile :=
  let profile0 := if force then with_activation_key None profile else profile in
  if truthy (activation_key profile0) then with_status "accepted" profile0
  else keyed env profile u.

Definition accept_user (env : Env) (force : bool) (profile : RegistrationProfile)
    (u : User) : User :=
  let profile0 := if force then with_activation_key None profile else profile in
  if truthy (activation_key profile0) then u
  else with_date_joined (datetime_now env) u.

(** The mails the operations hand to the mailer. *)
Definition registration_mail (env : Env) (site : string) (u : User) : Mail :=
  mkMail "registration" site (DEFAULT_FROM_EMAIL (settings env)) (email u) [].

Definition acceptance_mail (env : Env) (site : string) (message : option string)
    (p : RegistrationProfile) (u : User) : Mail :=
  mkMail "acceptance" site (DEFAULT_FROM_EMAIL (settings env)) (email u)
    [ ("activation_key", ctx_of_option (activation_key p));
      ("expiration_days", VInt (ACCOUNT_ACTIVATION_DAYS (settings env)));
      ("message", ctx_of_option message) ].

Definition rejection_mail (env : Env) (site : string) (message : option string)
    (u : User) : Mail :=
  mkMail "rejection" site (DEFAULT_FROM_EMAIL (settings env)) (email u)
    [ ("message", ctx_of_option message) ].

Definition activation_mail (env : Env) (site : string) (message : option string)
    (password : string) (is_generated : bool) (u : User) : Mail :=
  mkMail "activation" site (DEFAULT_FROM_EMAIL (settings env)) (email u)
    [ ("password", VStr password);
      ("is_generated", VBool is_generated);
      ("message", ctx_of_option message) ].

(** The mails of a call that sends only when asked to. *)
Definition mails (send_email : bool) (m : Mail) : list Mail :=
  if send_email then [m] else [].

(** The name is taken by some user. *)
Definition username_taken (name : string) (s : Store) : Prop :=
  map_Exists (λ _ u, username u = name) (users s).

(** Some profile already points at this user id. *)
Definition user_id_taken (uid : positive) (s : Store) : Prop :=
  map_Exists (λ _ p, user_id p = uid) (profiles s).

(** Every account active in [s'] was already active in [s]. *)
Definition no_new_active (s s' : Store) : Prop :=
  ∀ uid u', users s' !! uid = Some u' → is_active u' = true →
    ∃ u, users s !! uid = Some u ∧ is_active u = true.

(** ** Sample data *)

(** A seven-day window; the clock stands shortly after the epoch. *)
Definition env0 : Env :=
  mkEnv (mkSettings 7 10 "webmaster@localhost")
        (λ name, "key-" +:+ name) (λ _, "generated") 1000.

(** The same, seven days later to the microsecond. *)
Definition env_late : Env :=
  mkEnv (mkSettings 7 10 "webmaster@localhost")
        (λ name, "key-" +:+ name) (λ _, "generated") (timedelta 7).

Definition alice : User :=
  mkUser "alice" "alice@example.com" UnusablePassword false 0.

Definition untreated_profile : RegistrationProfile := mkProfile 1 "untreated" None.
Definition accepted_profile : RegistrationProfile :=
  mkProfile 1 "accepted" (Some "key-alice").
Definition rejected_profile : RegistrationProfile := mkProfile 1 "rejected" None.

Definition store_untreated : Store :=
  mkStore {[1%positive := alice]} {[1%positive := untreated_profile]} [].
Definition store_accepted : Store :=
  mkStore {[1%positive := alice]} {[1%positive := accepted_profile]} [].

(** An accepted profile whose account row is gone. *)
Definition store_orphan_accepted : Store :=
  mkStore ∅ {[1%positive := accepted_profile]} [].

(** A rejected profile whose account row is gone. *)
Definition store_orphan_rejected : Store :=
  mkStore ∅ {[1%positive := rejected_profile]} [].

(** The clock at the epoch. *)
Definition env_epoch : Env :=
  mkEnv (mkSettings 7 10 "webmaster@localhost")
        (λ name, "key-" +:+ name) (λ _, "generated") 0.

Definition bob : User :=
  mkUser "bob" "bob@example.com" UnusablePassword false 0.

(** Two accepted profiles that share a key. *)
Definition store_duplicate_key : Store :=
  mkStore {[1%positive := alice; 2%positive := bob]}
          {[1%positive := accepted_profile;
            2%positive := mkProfile 2 "accepted" (Some "key-alice")]} [].

(** The store after alice is accepted at the time of [env0]. *)
Definition store_accepted_now : Store :=
  mkStore {[1%positive := with_date_joined 1000 alice]}
          {[1%positive := accepted_profile]} [].

(** ** Running the monad *)

Ltac run :=
  unfold mbind, M_bind, bind, mret, M_ret, ret, raise, try_except,
    transaction_atomic, get_user, save_user, save_profile, delete_user,
    delete_profile, send_mail; simpl.

Lemma valid_status_cases v :
  valid_status v ↔ v = "untreated" ∨ v = "accepted" ∨ v = "rejected".
Proof.
  unfold valid_status, STATUS_LIST; simpl.
  rewrite !elem_of_cons, elem_of_nil. tauto.
Qed.

Section Entity.

Variable env : Env.

Lemma activation_key_expired_run self s u :
  users s !! user_id self = Some u →
  activation_key_expired env self s =
    (Ok (bool_decide (_status self = "accepted" ∧ window_closed env u)), s).
Proof.
  intros Hu. unfold activation_key_expired, window_closed.
  case_decide as Hst; run.
  - rewrite bool_decide_eq_false_2; [done | tauto].
  - rewrite Hu. do 2 f_equal. apply bool_decide_ext.
    tauto.
Qed.

Lemma activation_key_expired_not_accepted self s :
  _status self ≠ "accepted" → activation_key_expired env self s = (Ok false, s).
Proof. intros Hst. unfold activation_key_expired. by rewrite decide_True. Qed.

Lemma activation_key_expired_orphan self s :
  _status self = "accepted" → users s !! user_id self = None →
  activation_key_expired env self s = (Raise UserDoesNotExist, s).
Proof.
  intros Hst Hu. unfold activation_key_expired.
  rewrite decide_False by (intros H; by apply H). run. by rewrite Hu.
Qed.

Lemma _get_status_run self s u :
  users s !! user_id self = Some u →
  _get_status env self s =
    (Ok (if bool_decide (_status self = "accepted" ∧ window_closed env u)
         then "expired" else _status self), s).
Proof.
  intros Hu. unfold _get_status. run.
  rewrite (activation_key_expired_run _ _ _ Hu). by case_bool_decide.
Qed.

Lemma _get_status_not_accepted self s :
  _status self ≠ "accepted" → _get_status env self s = (Ok (_status self), s).
Proof.
  intros Hst. unfold _get_status. run.
  by rewrite activation_key_expired_not_accepted.
Qed.

(** C3. With the paired account in the store and a status column holding
    one of its three values, the status getter returns a value that is
    'expired' exactly when the persisted status is 'accepted' and join
    time plus the activation window is at most now; in every other case it
    returns the persisted status; and the expiry predicate is that same
    condition, hence false whenever the persisted status is not
    'accepted'.  Neither call raises or changes the store. *)
Theorem effective_status_spec self s u :
  users s !! user_id self = Some u →
  valid_status (_status self) →
  ∃ st b,
    _get_status env self s = (Ok st, s) ∧
    activation_key_expired env self s = (Ok b, s) ∧
    (st = "expired" ↔ _status self = "accepted" ∧ window_closed env u) ∧
    (¬ (_status self = "accepted" ∧ window_closed env u) → st = _status self) ∧
    (b = true ↔ _status self = "accepted" ∧ window_closed env u) ∧
    (_status self ≠ "accepted" → b = false).
Proof.
  intros Hu Hv. eexists _, _.
  split; [by apply _get_status_run |].
  split; [by apply activation_key_expired_run |].
  apply valid_status_cases in Hv.
  assert (_status self ≠ "expired") as Hne
    by (destruct Hv as [Hv | [Hv | Hv]]; by rewrite Hv).
  case_bool_decide as Hc; repeat split; done || tauto.
Qed.

End Entity.

Section Transitions.

Variable env : Env.

Lemma _set_status_generate self s u :
  users s !! user_id self = Some u →
  truthy (activation_key self) = false →
  _set_status env self "accepted" s = (Ok (keyed env self u), stamped env self u s).
Proof.
  intros Hu Hk. unfold _set_status. simpl. rewrite Hk. simpl. run. by rewrite Hu.
Qed.

Lemma _set_status_keep self s :
  truthy (activation_key self) = true →
  _set_status env self "accepted" s = (Ok (with_status "accepted" self), s).
Proof. intros Hk. unfold _set_status. simpl. by rewrite Hk. Qed.

Lemma _set_status_other self value s :
  value ≠ "accepted" →
  _set_status env self value s = (Ok (cleared value self), s).
Proof.
  intros Hv. unfold _set_status, cleared. simpl.
  rewrite (bool_decide_eq_false_2 _ Hv), (bool_decide_eq_true_2 _ Hv). simpl.
  destruct (truthy (activation_key self)); run; by destruct self.
Qed.

Lemma truthy_false_wf (k : option string) :
  k ≠ Some "" → truthy k = false → k = None.
Proof.
  destruct k as [k|]; [|done]. simpl. intros Hne Hk.
  apply bool_decide_eq_false in Hk. apply dec_stable in Hk. by subst.
Qed.

Lemma truthy_true_Some (k : option string) :
  truthy k = true → ∃ v, k = Some v ∧ v ≠ "".
Proof.
  destruct k as [k|]; [|done]. simpl. intros Hk.
  apply bool_decide_eq_true in Hk. eauto.
Qed.

(** C8 (as amended). Setting the status to 'accepted' on a profile whose
    paired account exists: the call returns with the status set and the
    profile table untouched; a present, non-empty key is kept unchanged
    and nothing is written, the join time included; a key that is absent
    or the empty string is replaced by a newly generated one and the
    account's join time is set to now; so the key changes, and the join
    time is stamped, only when a key is generated; and a transition from
    another status of a profile that has a key only when accepted
    generates the key and stamps the join time. *)
Theorem set_status_accepted_spec self s u :
  users s !! user_id self = Some u →
  ∃ self' s',
    _set_status env self "accepted" s = (Ok self', s') ∧
    _status self' = "accepted" ∧
    user_id self' = user_id self ∧
    profiles s' = profiles s ∧
    (∀ k, activation_key self = Some k → k ≠ "" →
       activation_key self' = Some k ∧ s' = s) ∧
    (activation_key self = None ∨ activation_key self = Some "" →
       activation_key self' = Some (generate_activation_key env (username u)) ∧
       users s' = <[user_id self := with_date_joined (datetime_now env) u]> (users s)) ∧
    (activation_key self' ≠ activation_key self →
       activation_key self = None ∨ activation_key self = Some "") ∧
    (users s' ≠ users s →
       activation_key self = None ∨ activation_key self = Some "") ∧
    (key_iff_accepted self → _status self ≠ "accepted" →
       activation_key self' = Some (generate_activation_key env (username u)) ∧
       date_joined <$> users s' !! user_id self = Some (datetime_now env)).
Proof.
  intros Hu.
  destruct (truthy (activation_key self)) eqn:Hk.
  - rewrite (_set_status_keep _ _ Hk).
    destruct (truthy_true_Some _ Hk) as (v & Hv & Hne).
    eexists _, _. split; [done |]. simpl.
    assert (key_iff_accepted self → _status self ≠ "accepted" → False) as Hno.
    { intros [Hinv _] Hst. apply Hst, Hinv. congruence. }
    do 3 (split; [done |]).
    split; [done |].
    split; [intros [Hn | He]; congruence |].
    split; [done |]. split; [done |].
    intros Hinv Hst. by destruct (Hno Hinv Hst).
  - rewrite (_set_status_generate _ _ _ Hu Hk).
    assert (activation_key self = None ∨ activation_key self = Some "") as Hfalsy.
    { destruct (activation_key self) as [k |] eqn:Hkey; [| by left]. right.
      simpl in Hk. apply bool_decide_eq_false in Hk. apply dec_stable in Hk.
      by subst. }
    eexists _, _. split; [done |]. simpl.
    do 3 (split; [done |]).
    split.
    { intros k Hkey Hne. destruct Hfalsy as [Hn | He]; congruence. }
    split; [done |]. split; [done |]. split; [done |].
    intros _ _. split; [done |]. by rewrite lookup_insert_eq.
Qed.

(** ** accept_registration *)

Lemma accept_registration_refused pk profile site send_email message s u :
  users s !! user_id profile = Some u →
  _status profile ≠ "untreated" → _status profile ≠ "rejected" →
  accept_registration env pk profile site send_email message false s
    = (Ok (None, profile), s).
Proof.
  intros Hu H1 H2. unfold accept_registration. run.
  rewrite (_get_status_run _ _ _ _ Hu). simpl.
  rewrite bool_decide_eq_false_2; [done |].
  rewrite !elem_of_cons, elem_of_nil.
  case_bool_decide; [| tauto]. intros [Hx | [Hx | []]]; discriminate.
Qed.

(** What an allowed acceptance does once the guard has passed. *)
Lemma accept_registration_allowed pk profile site send_email message force s u :
  users s !! user_id profile = Some u →
  force = true ∨ _status profile = "untreated" ∨ _status profile = "rejected" →
  let profile0 := if force then with_activation_key None profile else profile in
  ∃ profile' user' s',
    accept_registration env pk profile site send_email message force s
      = (Ok (Some user', profile'), s') ∧
    users s' = <[user_id profile := user']> (users s) ∧
    profiles s' = <[pk := profile']> (profiles s) ∧
    (if truthy (activation_key profile0)
     then profile' = with_status "accepted" profile0 ∧ user' = u
     else profile' = keyed env profile u ∧ user' = with_date_joined (datetime_now env) u).
Proof.
  intros Hu Hc profile0.
  assert (users s !! user_id profile0 = Some u) as Hu0 by (subst profile0; by destruct force).
  assert (force = false → _get_status env profile s = (Ok (_status profile), s)
            ∧ bool_decide (_status profile ∈ ["untreated"; "rejected"]) = true) as Hg.
  { intros ->. destruct Hc as [? | Hc]; [done |]. split.
    - apply _get_status_not_accepted. by destruct Hc as [-> | ->].
    - apply bool_decide_eq_true_2. rewrite !elem_of_cons. tauto. }
  unfold accept_registration, send_acceptance_email, _send_email.
  destruct (truthy (activation_key profile0)) eqn:Hk; subst profile0;
    destruct force; try discriminate Hk; run;
    try (destruct (Hg eq_refl) as [-> ->]).
  - rewrite (_set_status_keep _ _ Hk). simpl.
    destruct send_email; simpl; rewrite ?Hu; simpl; rewrite ?Hu;
      eexists _, _, _; (split; [reflexivity |]); simpl;
      by rewrite (insert_id _ _ _ Hu).
  - rewrite (_set_status_generate _ _ _ Hu0 Hk). simpl.
    destruct send_email; simpl; rewrite ?lookup_insert_eq; simpl;
      rewrite ?lookup_insert_eq; eexists _, _, _; (split; [reflexivity |]); simpl;
      by rewrite ?insert_insert_eq.
  - rewrite (_set_status_generate _ _ _ Hu0 Hk). simpl.
    destruct send_email; simpl; rewrite ?lookup_insert_eq; simpl;
      rewrite ?lookup_insert_eq; eexists _, _, _; (split; [reflexivity |]); simpl;
      by rewrite ?insert_insert_eq.
Qed.

(** C2. For a profile whose paired account exists: with force, or without
    force on persisted status 'untreated' or 'rejected', the call returns
    the user, the profile ends up accepted with a non-absent key, and that
    profile is what the table holds; with force the key is a newly
    generated one (the old key was cleared first) and the join time is
    stamped; without force on any other persisted status the call returns
    the none value and changes neither the store nor the instance. *)
Theorem accept_registration_spec pk profile site send_email message force s u :
  users s !! user_id profile = Some u →
  (force = true ∨ _status profile = "untreated" ∨ _status profile = "rejected" →
     ∃ user' profile' s',
       accept_registration env pk profile site send_email message force s
         = (Ok (Some user', profile'), s') ∧
       _status profile' = "accepted" ∧
       activation_key profile' ≠ None ∧
       profiles s' = <[pk := profile']> (profiles s) ∧
       users s' !! user_id profile = Some user' ∧
       (force = true →
          activation_key profile' = Some (generate_activation_key env (username u)) ∧
          user' = with_date_joined (datetime_now env) u)) ∧
  (force = false → _status profile ≠ "untreated" → _status profile ≠ "rejected" →
     accept_registration env pk profile site send_email message force s
       = (Ok (None, profile), s)).
Proof.
  intros Hu. split.
  - intros Hc.
    destruct (accept_registration_allowed pk profile site send_email message force s u Hu Hc)
      as (profile' & user' & s' & -> & Hus & Hps & Hcase).
    eexists _, _, _. split; [done |].
    rewrite Hus, Hps, lookup_insert_eq.
    destruct (truthy _) eqn:Hk; destruct Hcase as [-> ->]; simpl.
    + destruct (truthy_true_Some _ Hk) as (v & Hv & _).
      destruct force; simpl in *; [discriminate |].
      rewrite Hv. repeat split; done.
    + repeat split; done.
  - intros -> H1 H2. by eapply accept_registration_refused.
Qed.

(** ** reject_registration *)

Lemma reject_registration_refused pk profile site send_email message s u :
  users s !! user_id profile = Some u →
  _status profile ≠ "untreated" →
  reject_registration env pk profile site send_email message s
    = (Ok (None, profile), s).
Proof.
  intros Hu Hst. unfold reject_registration. run.
  rewrite (_get_status_run _ _ _ _ Hu). simpl.
  rewrite bool_decide_eq_false_2; [done |].
  by case_bool_decide.
Qed.

Lemma reject_registration_allowed pk profile site send_email message s u :
  users s !! user_id profile = Some u →
  _status profile = "untreated" →
  ∃ s',
    reject_registration env pk profile site send_email message s
      = (Ok (Some u, cleared "rejected" profile), s') ∧
    users s' = users s ∧
    profiles s' = <[pk := cleared "rejected" profile]> (profiles s).
Proof.
  intros Hu Hst. unfold reject_registration, send_rejection_email, _send_email. run.
  rewrite _get_status_not_accepted by (by rewrite Hst). rewrite Hst. simpl.
  rewrite _set_status_other by done. simpl.
  destruct send_email; simpl; rewrite ?Hu; simpl; rewrite ?Hu; by eexists.
Qed.

(** C7. For a profile whose paired account exists: on persisted status
    'untreated' the call returns the user, the status becomes 'rejected'
    and the row is saved, the accounts are not touched, and a profile that
    has a key only when accepted had no key and has none afterwards; on
    any other persisted status the call returns the none value and
    changes neither the store nor the instance. *)
Theorem reject_registration_spec pk profile site send_email message s u :
  users s !! user_id profile = Some u →
  (_status profile = "untreated" →
     ∃ profile' s',
       reject_registration env pk profile site send_email message s
         = (Ok (Some u, profile'), s') ∧
       _status profile' = "rejected" ∧
       user_id profile' = user_id profile ∧
       profiles s' = <[pk := profile']> (profiles s) ∧
       users s' = users s ∧
       (key_iff_accepted profile →
          activation_key profile = None ∧ activation_key profile' = None)) ∧
  (_status profile ≠ "untreated" →
     reject_registration env pk profile site send_email message s
       = (Ok (None, profile), s)).
Proof.
  intros Hu. split.
  - intros Hst.
    destruct (reject_registration_allowed pk profile site send_email message s u Hu Hst)
      as (s' & -> & Hus & Hps).
    assert (key_iff_accepted profile → activation_key profile = None) as Hnone.
    { intros [Hinv _]. destruct (activation_key profile); [| done].
      rewrite Hst in Hinv. by discriminate Hinv. }
    eexists _, _. split; [done |]. simpl.
    do 4 (split; [done |]). intros Hinv.
    by rewrite (Hnone Hinv).
  - intros Hst. by eapply reject_registration_refused.
Qed.

End Transitions.

(** ** activate_user *)

Lemma accepted_with_key_lookup key m pk p :
  accepted_with_key key m !! pk = Some p ↔
  m !! pk = Some p ∧ _status p = "accepted" ∧ activation_key p = Some key.
Proof. unfold accepted_with_key. rewrite map_lookup_filter_Some. simpl. tauto. Qed.

Lemma sole_match_filter key s pk profile :
  sole_match key s pk profile ↔
  accepted_with_key key (profiles s) = {[pk := profile]}.
Proof.
  split.
  - intros (Hp & Hst & Hk & Huniq). apply map_eq. intros i.
    destruct (decide (i = pk)) as [-> | Hne].
    + rewrite lookup_singleton_eq. by apply accepted_with_key_lookup.
    + rewrite lookup_singleton_ne by done.
      destruct (accepted_with_key key (profiles s) !! i) as [p' |] eqn:Hi; [| done].
      apply accepted_with_key_lookup in Hi as (? & ? & ?).
      destruct Hne. by eapply Huniq.
  - intros Heq.
    assert (accepted_with_key key (profiles s) !! pk = Some profile) as Hpk
      by (by rewrite Heq, lookup_singleton_eq).
    apply accepted_with_key_lookup in Hpk as (? & ? & ?).
    repeat split; try done. intros pk' p' Ha Hb Hc.
    assert (accepted_with_key key (profiles s) !! pk' = Some p') as Hpk'
      by (by apply accepted_with_key_lookup).
    rewrite Heq in Hpk'. apply lookup_singleton_Some in Hpk'. by destruct Hpk'.
Qed.

Lemma no_match_filter key s :
  no_match key s ↔ accepted_with_key key (profiles s) = ∅.
Proof.
  split.
  - intros Hno. apply map_empty. intros i.
    destruct (accepted_with_key key (profiles s) !! i) as [p |] eqn:Hi; [| done].
    apply accepted_with_key_lookup in Hi as (Hp & ? & ?).
    destruct (Hno _ _ Hp). done.
  - intros Heq pk p Hp [H1 H2].
    assert (accepted_with_key key (profiles s) !! pk = Some p) as Hpk
      by (by apply accepted_with_key_lookup).
    by rewrite Heq in Hpk.
Qed.

Lemma objects_get_sole key s pk profile :
  sole_match key s pk profile → objects_get key s = (Ok (pk, profile), s).
Proof.
  intros Hm%sole_match_filter. unfold objects_get.
  by rewrite Hm, map_to_list_singleton.
Qed.

Lemma objects_get_none key s :
  no_match key s → objects_get key s = (Raise ProfileDoesNotExist, s).
Proof.
  intros Hm%no_match_filter. unfold objects_get.
  by rewrite Hm, map_to_list_empty.
Qed.

(** [objects_get] returns a row only when it is the sole match. *)
Lemma objects_get_Ok key s row s' :
  objects_get key s = (Ok row, s') → s' = s ∧ sole_match key s row.1 row.2.
Proof.
  unfold objects_get.
  destruct (map_to_list _) as [| [pk p] [| ? ?]] eqn:Hl; intros [= <- <-].
  split; [done |]. apply sole_match_filter. simpl.
  rewrite <- (list_to_map_to_list (accepted_with_key key (profiles s))), Hl.
  done.
Qed.

Section Activation.

Variable env : Env.

Lemma activate_user_success key site password send_email message no_profile_delete
    s pk profile u :
  sole_match key s pk profile →
  users s !! user_id profile = Some u →
  ¬ window_closed env u →
  ∃ s',
    activate_user env key site password send_email message no_profile_delete s
      = (Ok (Some (activated env password u, chosen_password env password,
                   bool_decide (password = None))), s') ∧
    users s' = <[user_id profile := activated env password u]> (users s) ∧
    profiles s' = (if no_profile_delete then profiles s else delete pk (profiles s)).
Proof.
  intros Hm Hu Hw. unfold activate_user, send_activation_email, _send_email. run.
  rewrite (objects_get_sole _ _ _ _ Hm). simpl.
  rewrite (activation_key_expired_run _ _ _ _ Hu).
  rewrite bool_decide_eq_false_2 by tauto. simpl. rewrite Hu.
  destruct send_email, no_profile_delete; simpl; rewrite ?lookup_insert_eq; simpl;
    by eexists.
Qed.

Lemma activate_user_not_found key site password send_email message no_profile_delete s :
  no_match key s →
  activate_user env key site password send_email message no_profile_delete s
    = (Ok None, s).
Proof.
  intros Hm. unfold activate_user. run.
  by rewrite (objects_get_none _ _ Hm).
Qed.

Lemma activate_user_expired key site password send_email message no_profile_delete
    s pk profile u :
  sole_match key s pk profile →
  users s !! user_id profile = Some u →
  window_closed env u →
  activate_user env key site password send_email message no_profile_delete s
    = (Ok None, s).
Proof.
  intros Hm Hu Hw. unfold activate_user. run.
  rewrite (objects_get_sole _ _ _ _ Hm). simpl.
  rewrite (activation_key_expired_run _ _ _ _ Hu).
  destruct Hm as (_ & Hst & _).
  by rewrite bool_decide_eq_true_2.
Qed.

(** A call that returns a triple found a sole match and, unless told to
    keep it, deleted that row. *)
Lemma activate_user_Some key site password send_email message no_profile_delete s r s' :
  activate_user env key site password send_email message no_profile_delete s
    = (Ok (Some r), s') →
  ∃ pk profile,
    sole_match key s pk profile ∧
    profiles s' = (if no_profile_delete then profiles s else delete pk (profiles s)).
Proof.
  unfold activate_user, send_activation_email, _send_email. run.
  destruct (objects_get key s) as [[[pk profile] | e] s0] eqn:Hget; simpl.
  - apply objects_get_Ok in Hget as [-> Hm]. simpl in Hm.
    destruct (activation_key_expired env profile s) as [[[] | e] s1] eqn:Hexp;
      simpl; try discriminate.
    unfold activation_key_expired in Hexp.
    assert (s1 = s) as ->.
    { revert Hexp. case_decide; run; [by intros [= <-] |].
      destruct (users s !! user_id profile); simpl; by intros [= _ <-]. }
    destruct (users s !! user_id profile) as [u |] eqn:Hu; simpl; [| discriminate].
    destruct send_email, no_profile_delete; simpl; rewrite ?lookup_insert_eq; simpl;
      intros [= <- <-]; by exists pk, profile.
  - destruct (model_DoesNotExist e); simpl; discriminate.
Qed.

End Activation.

(** C4 (as amended). When exactly one profile has persisted status
    'accepted' and the given key, its account exists and the activation
    window is still open, and the supplied password is the none value or a
    non-empty string: the call returns the triple of account, password and
    flag; the account is saved active with that password; the password is
    the supplied one, or a generated one when none was supplied, and the
    flag says which; the profile is deleted unless [no_profile_delete] is
    set, in which case the profile table is left as it is. *)
Theorem activate_user_spec env key site password send_email message no_profile_delete
    s pk profile u :
  sole_match key s pk profile →
  users s !! user_id profile = Some u →
  ¬ window_closed env u →
  password ≠ Some "" →
  ∃ user' pw' s',
    activate_user env key site password send_email message no_profile_delete s
      = (Ok (Some (user', pw', bool_decide (password = None))), s') ∧
    pw' = default (generate_random_password env
                     (REGISTRATION_DEFAULT_PASSWORD_LENGTH (settings env))) password ∧
    user' = with_is_active true (with_password (RawPassword pw') u) ∧
    users s' = <[user_id profile := user']> (users s) ∧
    profiles s' = (if no_profile_delete then profiles s else delete pk (profiles s)).
Proof.
  intros Hm Hu Hw Hpw.
  destruct (activate_user_success env key site password send_email message
              no_profile_delete s pk profile u Hm Hu Hw) as (s' & Hrun & Hus & Hps).
  assert (chosen_password env password
          = default (generate_random_password env
                       (REGISTRATION_DEFAULT_PASSWORD_LENGTH (settings env))) password)
    as Hpw'.
  { unfold chosen_password. destruct password as [pw |]; simpl; [| done].
    rewrite bool_decide_eq_true_2; [done | congruence]. }
  unfold activated in *. rewrite Hpw' in *. by eexists _, _, _.
Qed.

(** C10. With the empty string as password on the sole accepted profile
    with this key, account present and window open: the account gets a
    generated password, the returned password is that generated one, and
    the returned flag is false. *)
Theorem activate_user_empty_password env key site send_email message no_profile_delete
    s pk profile u :
  sole_match key s pk profile →
  users s !! user_id profile = Some u →
  ¬ window_closed env u →
  let generated :=
    generate_random_password env (REGISTRATION_DEFAULT_PASSWORD_LENGTH (settings env)) in
  ∃ user' s',
    activate_user env key site (Some "") send_email message no_profile_delete s
      = (Ok (Some (user', generated, false)), s') ∧
    password user' = RawPassword generated ∧
    is_active user' = true ∧
    users s' !! user_id profile = Some user'.
Proof.
  intros Hm Hu Hw generated.
  destruct (activate_user_success env key site (Some "") send_email message
              no_profile_delete s pk profile u Hm Hu Hw) as (s' & Hrun & Hus & Hps).
  eexists _, _. split; [exact Hrun |].
  rewrite Hus, lookup_insert_eq. done.
Qed.

(** C5 (as amended). When no profile has persisted status 'accepted' and
    the given key, or exactly one profile has them and it belongs to an
    existing account whose join time plus the activation window is at
    most now, the call returns the none value, raises nothing, and leaves
    the whole store as it was. *)
Theorem activate_user_fails_spec env key site password send_email message
    no_profile_delete s :
  no_match key s ∨
  (∃ pk profile u,
     sole_match key s pk profile ∧
     users s !! user_id profile = Some u ∧
     window_closed env u) →
  activate_user env key site password send_email message no_profile_delete s
    = (Ok None, s).
Proof.
  intros [Hno | (pk & profile & u & Hm & Hu & Hw)].
  - by apply activate_user_not_found.
  - by eapply activate_user_expired.
Qed.

(** C6 (as amended). A call that succeeds without [no_profile_delete]
    found exactly one matching profile and deleted it; any call with the
    same key on the store it leaves, whatever its other arguments and
    whatever the time, returns the none value and changes nothing. *)
Theorem activate_user_twice env key site password send_email message s r s' :
  activate_user env key site password send_email message false s = (Ok (Some r), s') →
  (∃ pk profile, sole_match key s pk profile ∧ profiles s' = delete pk (profiles s)) ∧
  ∀ env' site' password' send_email' message' no_profile_delete',
    activate_user env' key site' password' send_email' message' no_profile_delete' s'
      = (Ok None, s').
Proof.
  intros Hrun.
  apply activate_user_Some in Hrun as (pk & profile & Hm & Hps).
  split; [by exists pk, profile |]. intros.
  apply activate_user_not_found, no_match_filter.
  apply sole_match_filter in Hm. rewrite Hps.
  unfold accepted_with_key in *. rewrite map_filter_delete, Hm.
  apply delete_singleton_eq.
Qed.

(** ** The maintenance sweeps *)

Lemma for_each_cons {A} (x : A) l body s :
  for_each (x :: l) body s =
    match body x s with
    | (Ok _, s1) => for_each l body s1
    | (Raise e, s1) => (Raise e, s1)
    end.
Proof. reflexivity. Qed.

Section Sweeps.

Variable env : Env.

Lemma delete_inactive_run pk p s u :
  users s !! user_id p = Some u →
  delete_inactive pk p s = (Ok tt, if is_active u then s else swept pk p s).
Proof.
  intros Hu. unfold delete_inactive. run. rewrite Hu.
  by destruct (is_active u).
Qed.

(** Every way one turn of the expiry loop can end. *)
Lemma delete_expired_users_body_cases pk p s :
  (delete_expired_users_body env (pk, p) s = (Ok tt, s) ∧ ¬ expired_inactive env s p) ∨
  (delete_expired_users_body env (pk, p) s = (Ok tt, swept pk p s) ∧ expired_inactive env s p) ∨
  (delete_expired_users_body env (pk, p) s = (Raise UserDoesNotExist, s) ∧
   _status p = "accepted" ∧ users s !! user_id p = None).
Proof.
  unfold delete_expired_users_body. run.
  destruct (decide (_status p = "accepted")) as [Hst | Hst].
  - destruct (users s !! user_id p) as [u |] eqn:Hu.
    + rewrite (activation_key_expired_run _ _ _ _ Hu).
      case_bool_decide as Hc; simpl.
      * rewrite (delete_inactive_run _ _ _ _ Hu).
        destruct (is_active u) eqn:Ha.
        -- left. split; [done |]. intros (_ & u' & Hu' & _ & Ha'). congruence.
        -- right; left. split; [done |]. split; [done |]. exists u. tauto.
      * left. split; [done |]. intros (_ & u' & Hu' & Hw & _).
        apply Hc. split; [done |]. congruence.
    + right; right. by rewrite activation_key_expired_orphan.
  - left. rewrite activation_key_expired_not_accepted by done.
    split; [done |]. by intros [? _].
Qed.

Lemma expired_inactive_swept pk0 p0 s p :
  expired_inactive env (swept pk0 p0 s) p → expired_inactive env s p.
Proof.
  intros (Hst & u & Hu & Hw & Ha). split; [done |]. exists u.
  simpl in Hu. apply lookup_delete_Some in Hu as [_ Hu]. done.
Qed.

(** The expiry loop only deletes, and only what was expired and
    inactive when the loop started. *)
Lemma delete_expired_users_loop l : ∀ s s',
  for_each l (delete_expired_users_body env) s = (Ok tt, s') →
  (∀ k, profiles s' !! k = profiles s !! k ∨
        (profiles s' !! k = None ∧ ∃ p, (k, p) ∈ l ∧ expired_inactive env s p)) ∧
  (∀ uid, users s' !! uid = users s !! uid ∨
        (users s' !! uid = None ∧
         ∃ k p, (k, p) ∈ l ∧ user_id p = uid ∧ expired_inactive env s p)) ∧
  outbox s' = outbox s.
Proof.
  induction l as [| [pk0 p0] l IH]; intros s s'.
  - intros [= <-]. repeat split; by left.
  - rewrite for_each_cons.
    destruct (delete_expired_users_body_cases pk0 p0 s)
      as [[-> Hn] | [[-> Hd] | [-> _]]]; [| | discriminate].
    + intros Hrest. destruct (IH _ _ Hrest) as (Hp & Hu & Ho).
      split; [| split; [| done]].
      * intros k. destruct (Hp k) as [? | (? & p & ? & ?)]; [by left | right].
        split; [done |]. exists p. split; [by apply elem_of_cons; right | done].
      * intros uid. destruct (Hu uid) as [? | (? & k & p & ? & ? & ?)]; [by left | right].
        split; [done |]. exists k, p. split; [by apply elem_of_cons; right | done].
    + intros Hrest. destruct (IH _ _ Hrest) as (Hp & Hu & Ho).
      split; [| split; [| done]].
      * intros k. destruct (Hp k) as [Hk | (? & p & ? & Hei)].
        -- simpl in Hk. destruct (decide (k = pk0)) as [-> | Hne].
           ++ right. rewrite Hk, lookup_delete_eq. split; [done |].
              exists p0. split; [by apply elem_of_cons; left | done].
           ++ left. by rewrite Hk, lookup_delete_ne.
        -- right. split; [done |]. exists p.
           split; [by apply elem_of_cons; right | by eapply expired_inactive_swept].
      * intros uid. destruct (Hu uid) as [Hk | (? & k & p & ? & ? & Hei)].
        -- simpl in Hk. destruct (decide (uid = user_id p0)) as [-> | Hne].
           ++ right. rewrite Hk, lookup_delete_eq. split; [done |].
              exists pk0, p0. split; [by apply elem_of_cons; left | done].
           ++ left. by rewrite Hk, lookup_delete_ne.
        -- right. split; [done |]. exists k, p.
           split; [by apply elem_of_cons; right |].
           split; [done | by eapply expired_inactive_swept].
Qed.

(** Frame of [delete_expired_users]: a sweep that returns removes only
    profiles whose key has expired and whose account is inactive; every
    other profile stays as it is, and so does its account when accounts
    and profiles are paired one to one. *)
Lemma delete_expired_users_frame s s' :
  delete_expired_users env s = (Ok tt, s') →
  ∀ pk p, profiles s !! pk = Some p →
    (profiles s' !! pk = Some p ∨
     (profiles s' !! pk = None ∧ expired_inactive env s p)) ∧
    (¬ expired_inactive env s p → profiles s' !! pk = Some p) ∧
    (one_to_one s → ¬ expired_inactive env s p →
       users s' !! user_id p = users s !! user_id p).
Proof.
  unfold delete_expired_users, objects_all. run.
  destruct (for_each _ _ s) as [[[] | e] s1] eqn:Hloop; intros [= <-].
  destruct (delete_expired_users_loop _ _ _ Hloop) as (Hp & Hu & _).
  intros pk p Hpk.
  assert (profiles s1 !! pk = Some p ∨
          (profiles s1 !! pk = None ∧ expired_inactive env s p)) as Hcase.
  { destruct (Hp pk) as [-> | (? & p' & Hin & ?)]; [by left | right].
    apply elem_of_map_to_list in Hin. split; [done |]. congruence. }
  split; [done |]. split.
  - intros Hn. destruct Hcase as [? | [_ ?]]; done.
  - intros H11 Hn. destruct (Hu (user_id p)) as [? | (_ & k & p' & Hin & Hid & Hei)]; [done |].
    apply elem_of_map_to_list in Hin.
    assert (k = pk) as -> by (by eapply H11).
    congruence.
Qed.

(** The expiry loop cannot get past an accepted profile whose account is
    missing: the lookup in the expiry test raises outside the [try]. *)
Lemma delete_expired_users_loop_orphan l : ∀ s pk p,
  (pk, p) ∈ l → _status p = "accepted" → users s !! user_id p = None →
  ∃ s', for_each l (delete_expired_users_body env) s = (Raise UserDoesNotExist, s') ∧
        outbox s' = outbox s.
Proof.
  induction l as [| [pk0 p0] l IH]; intros s pk p Hin Hst Hu.
  - by apply elem_of_nil in Hin.
  - rewrite for_each_cons.
    destruct (delete_expired_users_body_cases pk0 p0 s)
      as [[Hrun Hn] | [[-> Hd] | [-> _]]].
    + apply elem_of_cons in Hin as [[= <- <-] | Hin].
      * exfalso. revert Hrun. unfold delete_expired_users_body. run.
        by rewrite activation_key_expired_orphan.
      * rewrite Hrun. by eapply IH.
    + apply elem_of_cons in Hin as [[= <- <-] | Hin].
      * destruct Hd as (_ & u & Hu' & _). congruence.
      * destruct (IH (swept pk0 p0 s) pk p Hin Hst) as (s' & -> & Ho).
        { simpl. by apply lookup_delete_None; right. }
        by exists s'.
    + by exists s.
Qed.

(** The expiry loop runs to its end when every accepted profile it meets
    has its account and no two rows share an account. *)
Lemma delete_expired_users_loop_returns l : ∀ s,
  NoDup ((λ row, user_id row.2) <$> l) →
  (∀ pk p, (pk, p) ∈ l → _status p = "accepted" → is_Some (users s !! user_id p)) →
  ∃ s', for_each l (delete_expired_users_body env) s = (Ok tt, s').
Proof.
  induction l as [| [pk0 p0] l IH]; intros s Hnd Hall.
  - by exists s.
  - rewrite for_each_cons. rewrite fmap_cons in Hnd.
    apply NoDup_cons in Hnd as [Hfresh Hnd].
    destruct (delete_expired_users_body_cases pk0 p0 s)
      as [[-> _] | [[-> _] | [_ [Hst Hu]]]].
    + apply IH; [done |]. intros pk p Hin. apply (Hall pk p). by apply elem_of_cons; right.
    + apply IH; [done |]. intros pk p Hin Hst. simpl.
      rewrite lookup_delete_ne.
      * apply (Hall pk p); [by apply elem_of_cons; right | done].
      * intros Heq. apply Hfresh. apply list_elem_of_fmap. by exists (pk, p).
    + destruct (Hall pk0 p0) as [u Hu']; [by apply elem_of_cons; left | done |].
      congruence.
Qed.

(** [delete_expired_users] returns on a store that pairs accounts and
    profiles one to one and holds the account of every accepted profile. *)
Lemma delete_expired_users_returns s :
  one_to_one s →
  (∀ pk p, profiles s !! pk = Some p → _status p = "accepted" →
     is_Some (users s !! user_id p)) →
  ∃ s', delete_expired_users env s = (Ok tt, s').
Proof.
  intros H11 Hall.
  destruct (delete_expired_users_loop_returns (map_to_list (profiles s)) s)
    as [s' Hloop].
  - apply NoDup_fmap_2_strong; [| apply NoDup_map_to_list].
    intros [k1 p1] [k2 p2] H1%elem_of_map_to_list H2%elem_of_map_to_list Heq.
    simpl in Heq. assert (k1 = k2) as -> by (by eapply H11). congruence.
  - intros pk p Hin%elem_of_map_to_list. by apply (Hall pk p).
  - exists s'. unfold delete_expired_users, objects_all. run. by rewrite Hloop.
Qed.

End Sweeps.

(** ** The key invariant *)

Lemma store_inv_same s s' :
  profiles s' = profiles s → store_inv s → store_inv s'.
Proof. intros Heq Hinv pk p. rewrite Heq. apply Hinv. Qed.

Lemma store_inv_insert s s' pk p :
  profiles s' = <[pk := p]> (profiles s) → key_iff_accepted p →
  store_inv s → store_inv s'.
Proof.
  intros Heq Hp Hinv k q. rewrite Heq, lookup_insert.
  case_decide; [by intros [= <-] | apply Hinv].
Qed.

Lemma store_inv_subseteq s s' :
  profiles s' ⊆ profiles s → store_inv s → store_inv s'.
Proof.
  intros Hsub Hinv k q Hk. eapply Hinv, lookup_weaken; eauto.
Qed.

Lemma transaction_atomic_Raise {A} (m : M A) s e s' :
  transaction_atomic m s = (Raise e, s') → profiles s' = profiles s.
Proof.
  unfold transaction_atomic.
  destruct (m s) as [[a | e'] s1]; [discriminate |]. by intros [= _ <-].
Qed.

Lemma register_profiles env name mail site send_email s r s' :
  register env name mail site send_email s = (r, s') →
  profiles s' = profiles s ∨
  ∃ pk uid, profiles s' = <[pk := mkProfile uid "untreated" None]> (profiles s).
Proof.
  destruct r as [a | e]; [| left; by eapply transaction_atomic_Raise].
  unfold register, create_user, objects_create, send_registration_email, _send_email.
  run. case_decide; simpl; [discriminate |].
  case_decide; simpl; [discriminate |].
  destruct send_email; simpl; rewrite ?lookup_insert_eq; simpl;
    intros [= _ <-]; right; by eexists _, _.
Qed.

Lemma accept_registration_profiles env pk profile site send_email message force s r s' :
  accept_registration env pk profile site send_email message force s = (r, s') →
  profiles s' = profiles s ∨
  ∃ p', profiles s' = <[pk := p']> (profiles s) ∧
        _status p' = "accepted" ∧ activation_key p' ≠ None.
Proof.
  destruct r as [a | e]; [| left; by eapply transaction_atomic_Raise].
  destruct (users s !! user_id profile) as [u |] eqn:Hu.
  - destruct (decide (force = true ∨ _status profile = "untreated"
                      ∨ _status profile = "rejected")) as [Hc | Hc].
    + destruct (accept_registration_allowed env pk profile site send_email message
                  force s u Hu Hc) as (p' & u' & s1 & -> & _ & Hps & Hcase).
      intros [= _ <-]. right. exists p'. split; [done |].
      destruct (truthy _) eqn:Hk; destruct Hcase as [-> _]; [| done].
      apply truthy_true_Some in Hk as (v & Hv & _).
      destruct force; simpl in *; [discriminate |]. by rewrite Hv.
    + assert (force = false) as -> by (destruct force; tauto).
      rewrite (accept_registration_refused env pk profile site send_email message s u)
        by tauto.
      intros [= _ <-]. by left.
  - unfold accept_registration, _get_status, activation_key_expired, _set_status,
      send_acceptance_email, _send_email. run.
    destruct force; simpl.
    + rewrite Hu. simpl. discriminate.
    + case_decide; simpl; [| rewrite Hu; simpl; discriminate].
      case_bool_decide; simpl; [| intros [= _ <-]; by left].
      destruct (truthy (activation_key profile)); simpl; rewrite ?Hu; simpl;
        [| discriminate].
      destruct send_email; simpl; rewrite ?Hu; simpl; discriminate.
Qed.

Lemma reject_registration_profiles env pk profile site send_email message s r s' :
  key_iff_accepted profile →
  reject_registration env pk profile site send_email message s = (r, s') →
  profiles s' = profiles s ∨
  ∃ p', profiles s' = <[pk := p']> (profiles s) ∧
        _status p' = "rejected" ∧ activation_key p' = None.
Proof.
  intros Hinv.
  destruct r as [a | e]; [| left; by eapply transaction_atomic_Raise].
  destruct (users s !! user_id profile) as [u |] eqn:Hu.
  - destruct (decide (_status profile = "untreated")) as [Hc | Hc].
    + destruct (reject_registration_allowed env pk profile site send_email message
                  s u Hu Hc) as (s1 & -> & _ & Hps).
      intros [= _ <-]. right. eexists. split; [done |]. split; [done |]. simpl.
      destruct Hinv as [Hinv _]. rewrite Hc in Hinv.
      destruct (activation_key profile); [| done]. by discriminate Hinv.
    + rewrite (reject_registration_refused env pk profile site send_email message s u)
        by done.
      intros [= _ <-]. by left.
  - unfold reject_registration, _get_status, activation_key_expired, _set_status,
      send_rejection_email, _send_email. run.
    case_decide; simpl; [| rewrite Hu; simpl; discriminate].
    case_bool_decide; simpl; [| intros [= _ <-]; by left].
    destruct (truthy (activation_key profile)); simpl;
      destruct send_email; simpl; rewrite ?Hu; simpl; discriminate.
Qed.

Lemma activate_user_profiles env key site password send_email message no_profile_delete
    s r s' :
  activate_user env key site password send_email message no_profile_delete s = (r, s') →
  profiles s' ⊆ profiles s.
Proof.
  destruct r as [[a |] | e].
  - intros (pk & profile & _ & ->)%activate_user_Some.
    destruct no_profile_delete; [done | apply delete_subseteq].
  - unfold activate_user, send_activation_email, _send_email. run.
    destruct (objects_get key s) as [[[pk profile] | e] s0] eqn:Hget; simpl.
    + apply objects_get_Ok in Hget as [-> (_ & Hst & _)]. simpl in Hst.
      destruct (users s !! user_id profile) as [u |] eqn:Hu.
      * rewrite (activation_key_expired_run _ _ _ _ Hu).
        case_bool_decide; simpl; [by intros [= <-] |]. rewrite Hu.
        destruct send_email, no_profile_delete; simpl; rewrite ?lookup_insert_eq; simpl;
          discriminate.
      * rewrite activation_key_expired_orphan by done. discriminate.
    + assert (s0 = s) as ->.
      { unfold objects_get in Hget.
        destruct (map_to_list _) as [| ? [| ? ?]]; by injection Hget. }
      destruct (model_DoesNotExist e); simpl; [by intros [= <-] | discriminate].
  - intros ->%transaction_atomic_Raise. done.
Qed.

Lemma delete_inactive_subseteq pk p s r s' :
  delete_inactive pk p s = (r, s') → profiles s' ⊆ profiles s.
Proof.
  unfold delete_inactive. run.
  destruct (users s !! user_id p) as [u |]; simpl.
  - destruct (is_active u); simpl; intros [= _ <-]; [done | apply delete_subseteq].
  - intros [= _ <-]. apply delete_subseteq.
Qed.

Lemma for_each_subseteq {A} (body : A → M unit) l :
  (∀ x s r s', body x s = (r, s') → profiles s' ⊆ profiles s) →
  ∀ s r s', for_each l body s = (r, s') → profiles s' ⊆ profiles s.
Proof.
  intros Hbody. induction l as [| x l IH]; intros s r s'.
  - by intros [= _ <-].
  - rewrite for_each_cons.
    destruct (body x s) as [[[] | e] s1] eqn:Hx.
    + intros Hrest. etrans; [by eapply IH | by eapply Hbody].
    + intros [= _ <-]. by eapply Hbody.
Qed.

Lemma sweep_subseteq (body : positive * RegistrationProfile → M unit) s r s' :
  (∀ x s r s', body x s = (r, s') → profiles s' ⊆ profiles s) →
  transaction_atomic (all ← objects_all; for_each all body) s = (r, s') →
  profiles s' ⊆ profiles s.
Proof.
  intros Hbody. destruct r as [a | e].
  - unfold transaction_atomic, objects_all. run.
    destruct (for_each _ _ s) as [[[] | e] s1] eqn:Hloop; intros ?; simplify_eq.
    by eapply (for_each_subseteq body).
  - by intros ->%transaction_atomic_Raise.
Qed.

Lemma delete_expired_users_subseteq env s r s' :
  delete_expired_users env s = (r, s') → profiles s' ⊆ profiles s.
Proof.
  apply sweep_subseteq. intros [pk p] t r0 t'.
  destruct (delete_expired_users_body_cases env pk p t)
    as [[-> _] | [[-> _] | [-> _]]]; intros ?; simplify_eq; simpl;
    [done | apply delete_subseteq | done].
Qed.

Lemma _get_status_store env p s r s' :
  _get_status env p s = (r, s') → s' = s.
Proof.
  unfold _get_status, activation_key_expired. run.
  case_decide; run; [by intros [= _ <-] |].
  destruct (users s !! user_id p); simpl; [| by intros [= _ <-]].
  case_bool_decide; by intros [= _ <-].
Qed.

Lemma delete_rejected_users_subseteq env s r s' :
  delete_rejected_users env s = (r, s') → profiles s' ⊆ profiles s.
Proof.
  apply sweep_subseteq. intros [pk p] t r0 t'.
  unfold delete_rejected_users_body. run.
  destruct (_get_status env p t) as [[st | e] t1] eqn:Hst.
  - apply _get_status_store in Hst as ->.
    case_bool_decide; [apply delete_inactive_subseteq | by intros [= _ <-]].
  - apply _get_status_store in Hst as ->. by intros [= _ <-].
Qed.

Lemma store_inv_empty : store_inv empty_store.
Proof. intros pk p Hp. simpl in Hp. by rewrite lookup_empty in Hp. Qed.

Lemma step_preserves_store_inv s s' :
  store_inv s → step s s' → store_inv s'.
Proof.
  intros Hinv Hstep. destruct Hstep.
  - match goal with H : register _ _ _ _ _ _ = _ |- _ =>
      apply register_profiles in H as [Heq | (pk & uid & Heq)] end.
    + by eapply store_inv_same.
    + eapply store_inv_insert; [done | | done]. by split.
  - match goal with H : accept_registration _ _ _ _ _ _ _ _ = _ |- _ =>
      apply accept_registration_profiles in H as [Heq | (p' & Heq & Hst & Hk)] end.
    + by eapply store_inv_same.
    + eapply store_inv_insert; [done | | done]. by split.
  - match goal with H : reject_registration _ _ _ _ _ _ _ = _ |- _ =>
      apply reject_registration_profiles in H as [Heq | (p' & Heq & Hst & Hk)];
        [| | by eapply Hinv] end.
    + by eapply store_inv_same.
    + eapply store_inv_insert; [done | | done].
      split; [by rewrite Hk | by rewrite Hst].
  - eapply store_inv_subseteq; [by eapply activate_user_profiles | done].
  - eapply store_inv_subseteq; [by eapply delete_expired_users_subseteq | done].
  - eapply store_inv_subseteq; [by eapply delete_rejected_users_subseteq | done].
Qed.

(** C1. The store that holds no profile satisfies the invariant "the
    activation key is present exactly when the persisted status is
    'accepted'"; every manager operation (register, accept, reject,
    activate, and the two sweeps), whatever its arguments and outcome,
    leads from a store that satisfies it to one that does; hence every
    profile of every store reachable through the operations has a key
    exactly when its persisted status is 'accepted'. *)
Theorem key_iff_accepted_invariant :
  store_inv empty_store ∧
  (∀ s s', store_inv s → step s s' → store_inv s') ∧
  (∀ s, reachable s →
     ∀ pk p, profiles s !! pk = Some p →
       (activation_key p ≠ None ↔ _status p = "accepted")).
Proof.
  split; [| split].
  - apply store_inv_empty.
  - apply step_preserves_store_inv.
  - intros s Hreach.
    assert (store_inv s) as Hinv; [| exact Hinv].
    revert s Hreach. unfold reachable. apply rtc_ind_r.
    + apply store_inv_empty.
    + intros s1 s2 _ Hstep Hinv. by eapply step_preserves_store_inv.
Qed.

(** C9 (the clause the code misses). When some profile has persisted
    status 'accepted' and its account is missing, the sweep does not
    delete that profile: the expiry test looks the account up before the
    [try] block is entered, the sweep raises, and the store is left as it
    was. *)
Theorem delete_expired_users_orphan env s pk p :
  profiles s !! pk = Some p →
  _status p = "accepted" →
  users s !! user_id p = None →
  delete_expired_users env s = (Raise UserDoesNotExist, s).
Proof.
  intros Hp Hst Hu.
  assert ((pk, p) ∈ map_to_list (profiles s)) as Hin by (by apply elem_of_map_to_list).
  destruct (delete_expired_users_loop_orphan env _ s pk p Hin Hst Hu) as (s' & Hloop & Ho).
  unfold delete_expired_users, objects_all. run. rewrite Hloop, Ho.
  by destruct s.
Qed.

(** ** The operations on sample data *)

Lemma sole_match_store_accepted :
  sole_match "key-alice" store_accepted 1 accepted_profile.
Proof. apply sole_match_filter. vm_compute. reflexivity. Qed.

Lemma window_open_alice : ¬ window_closed env0 alice.
Proof. unfold window_closed, timedelta. simpl. lia. Qed.

Lemma window_closed_alice : window_closed env_late alice.
Proof. unfold window_closed. apply Z.leb_le. reflexivity. Qed.

(** The scenario of the specification: register, accept, activate. *)
Example register_accept_activate :
  ∃ s1 s2 s3,
    register env0 "alice" "alice@example.com" "site" false empty_store
      = (Ok (1%positive, with_date_joined 1000 alice), s1) ∧
    profiles s1 !! 1%positive = Some untreated_profile ∧
    accept_registration env0 1 untreated_profile "site" false None false s1
      = (Ok (Some (with_date_joined 1000 alice), accepted_profile), s2) ∧
    activate_user env0 "key-alice" "site" None false None false s2
      = (Ok (Some (mkUser "alice" "alice@example.com" (RawPassword "generated") true 1000,
                   "generated", true)), s3) ∧
    profiles s3 = ∅.
Proof.
  eexists _, _, _.
  split; [vm_compute; reflexivity |].
  split; [vm_compute; reflexivity |].
  split; [vm_compute; reflexivity |].
  split; vm_compute; reflexivity.
Qed.

(** The sibling sweep reaches its [except] branch: a rejected profile
    whose account is missing is deleted. *)
Example delete_rejected_users_orphan :
  delete_rejected_users env0 store_orphan_rejected = (Ok tt, empty_store).
Proof. vm_compute. reflexivity. Qed.

(** C3, at an accepted profile exactly seven days after the join time. *)
Lemma effective_status_spec_witness :
  users store_accepted !! user_id accepted_profile = Some alice ∧
  valid_status (_status accepted_profile) ∧
  ∃ st b,
    _get_status env_late accepted_profile store_accepted = (Ok st, store_accepted) ∧
    activation_key_expired env_late accepted_profile store_accepted
      = (Ok b, store_accepted) ∧
    (st = "expired" ↔
       _status accepted_profile = "accepted" ∧ window_closed env_late alice) ∧
    (¬ (_status accepted_profile = "accepted" ∧ window_closed env_late alice) →
       st = _status accepted_profile) ∧
    (b = true ↔ _status accepted_profile = "accepted" ∧ window_closed env_late alice) ∧
    (_status accepted_profile ≠ "accepted" → b = false).
Proof.
  assert (valid_status (_status accepted_profile)) as Hv
    by (apply valid_status_cases; simpl; tauto).
  split; [reflexivity |]. split; [exact Hv |].
  exact (effective_status_spec env_late accepted_profile store_accepted alice
           eq_refl Hv).
Defined.

(** C8, at an untreated profile without a key. *)
Lemma set_status_accepted_spec_witness :
  ∃ self' s',
    _set_status env0 untreated_profile "accepted" store_untreated = (Ok self', s') ∧
    _status self' = "accepted" ∧
    user_id self' = user_id untreated_profile ∧
    profiles s' = profiles store_untreated ∧
    (∀ k, activation_key untreated_profile = Some k → k ≠ "" →
       activation_key self' = Some k ∧ s' = store_untreated) ∧
    (activation_key untreated_profile = None ∨ activation_key untreated_profile = Some "" →
       activation_key self' = Some (generate_activation_key env0 (username alice)) ∧
       users s' = <[user_id untreated_profile := with_date_joined (datetime_now env0) alice]>
                    (users store_untreated)) ∧
    (activation_key self' ≠ activation_key untreated_profile →
       activation_key untreated_profile = None ∨ activation_key untreated_profile = Some "") ∧
    (users s' ≠ users store_untreated →
       activation_key untreated_profile = None ∨ activation_key untreated_profile = Some "") ∧
    (key_iff_accepted untreated_profile → _status untreated_profile ≠ "accepted" →
       activation_key self' = Some (generate_activation_key env0 (username alice)) ∧
       date_joined <$> users s' !! user_id untreated_profile = Some (datetime_now env0)).
Proof.
  apply (set_status_accepted_spec env0 untreated_profile store_untreated alice).
  reflexivity.
Defined.

(** C8: the claim as written fails twice.  On an accepted profile with
    its key the assignment keeps the key and writes nothing, so the join
    time stays where it was and is not the current time; and a key that
    is present but empty is not kept: a new one is generated. *)
Lemma set_status_accepted_spec_counterexample :
  (_set_status env0 accepted_profile "accepted" store_accepted
     = (Ok accepted_profile, store_accepted) ∧
   date_joined <$> users store_accepted !! user_id accepted_profile = Some 0 ∧
   datetime_now env0 = 1000) ∧
  (activation_key (mkProfile 1 "accepted" (Some "")) = Some "" ∧
   ∃ self' s',
     _set_status env0 (mkProfile 1 "accepted" (Some "")) "accepted" store_accepted
       = (Ok self', s') ∧
     activation_key self' = Some "key-alice").
Proof.
  split.
  - repeat split; vm_compute; reflexivity.
  - split; [reflexivity |]. eexists _, _. split; vm_compute; reflexivity.
Qed.

(** C2, at an untreated profile, without force. *)
Lemma accept_registration_spec_witness :
  (false = true ∨ _status untreated_profile = "untreated"
   ∨ _status untreated_profile = "rejected" →
     ∃ user' profile' s',
       accept_registration env0 1 untreated_profile "site" true None false store_untreated
         = (Ok (Some user', profile'), s') ∧
       _status profile' = "accepted" ∧
       activation_key profile' ≠ None ∧
       profiles s' = <[1%positive := profile']> (profiles store_untreated) ∧
       users s' !! user_id untreated_profile = Some user' ∧
       (false = true →
          activation_key profile' = Some (generate_activation_key env0 (username alice)) ∧
          user' = with_date_joined (datetime_now env0) alice)) ∧
  (false = false → _status untreated_profile ≠ "untreated" →
   _status untreated_profile ≠ "rejected" →
     accept_registration env0 1 untreated_profile "site" true None false store_untreated
       = (Ok (None, untreated_profile), store_untreated)).
Proof.
  apply (accept_registration_spec env0 1 untreated_profile "site" true None false
           store_untreated alice).
  reflexivity.
Defined.

(** C7, at an untreated profile. *)
Lemma reject_registration_spec_witness :
  (_status untreated_profile = "untreated" →
     ∃ profile' s',
       reject_registration env0 1 untreated_profile "site" true None store_untreated
         = (Ok (Some alice, profile'), s') ∧
       _status profile' = "rejected" ∧
       user_id profile' = user_id untreated_profile ∧
       profiles s' = <[1%positive := profile']> (profiles store_untreated) ∧
       users s' = users store_untreated ∧
       (key_iff_accepted untreated_profile →
          activation_key untreated_profile = None ∧ activation_key profile' = None)) ∧
  (_status untreated_profile ≠ "untreated" →
     reject_registration env0 1 untreated_profile "site" true None store_untreated
       = (Ok (None, untreated_profile), store_untreated)).
Proof.
  apply (reject_registration_spec env0 1 untreated_profile "site" true None
           store_untreated alice).
  reflexivity.
Defined.

(** C4, with no password supplied and the default deletion. *)
Lemma activate_user_spec_witness :
  ∃ user' pw' s',
    activate_user env0 "key-alice" "site" None true None false store_accepted
      = (Ok (Some (user', pw', bool_decide (None = None :> option string))), s') ∧
    pw' = default (generate_random_password env0
                     (REGISTRATION_DEFAULT_PASSWORD_LENGTH (settings env0))) None ∧
    user' = with_is_active true (with_password (RawPassword pw') alice) ∧
    users s' = <[user_id accepted_profile := user']> (users store_accepted) ∧
    profiles s' = (if false then profiles store_accepted
                   else delete 1%positive (profiles store_accepted)).
Proof.
  apply (activate_user_spec env0 "key-alice" "site" None true None false
           store_accepted 1 accepted_profile alice).
  - exact sole_match_store_accepted.
  - reflexivity.
  - exact window_open_alice.
  - discriminate.
Defined.

(** C4: the claim as written fails twice.  With [no_profile_delete] the
    call succeeds and the profile is still in the table; with the empty
    string as password the account gets a generated password, not the
    supplied one, and the flag is false. *)
Lemma activate_user_spec_counterexample :
  (∃ r s',
     activate_user env0 "key-alice" "site" None true None true store_accepted
       = (Ok (Some r), s') ∧
     profiles s' !! 1%positive = Some accepted_profile) ∧
  (∃ user' s',
     activate_user env0 "key-alice" "site" (Some "") true None false store_accepted
       = (Ok (Some (user', "generated", false)), s') ∧
     password user' = RawPassword "generated").
Proof.
  split.
  - eexists _, _. split; vm_compute; reflexivity.
  - eexists _, _. split; vm_compute; reflexivity.
Qed.

(** C10, on the sample store. *)
Lemma activate_user_empty_password_witness :
  ∃ user' s',
    activate_user env0 "key-alice" "site" (Some "") true None false store_accepted
      = (Ok (Some (user',
                   generate_random_password env0
                     (REGISTRATION_DEFAULT_PASSWORD_LENGTH (settings env0)),
                   false)), s') ∧
    password user'
      = RawPassword (generate_random_password env0
                       (REGISTRATION_DEFAULT_PASSWORD_LENGTH (settings env0))) ∧
    is_active user' = true ∧
    users s' !! user_id accepted_profile = Some user'.
Proof.
  apply (activate_user_empty_password env0 "key-alice" "site" true None false
           store_accepted 1 accepted_profile alice).
  - exact sole_match_store_accepted.
  - reflexivity.
  - exact window_open_alice.
Defined.

(** C5, at a key whose window closed this very microsecond. *)
Lemma activate_user_fails_spec_witness :
  activate_user env_late "key-alice" "site" None true None false store_accepted
    = (Ok None, store_accepted).
Proof.
  apply (activate_user_fails_spec env_late "key-alice" "site" None true None false
           store_accepted).
  right. exists 1%positive, accepted_profile, alice.
  split; [exact sole_match_store_accepted |].
  split; [reflexivity | exact window_closed_alice].
Defined.

(** The store with two accepted profiles that share a key is one the
    manager produces: register alice and bob, then accept both while the
    key generator draws the same key twice. *)
Lemma reachable_store_duplicate_key : reachable store_duplicate_key.
Proof.
  pose (draw := mkEnv (mkSettings 7 10 "webmaster@localhost")
                  (λ _, "key-alice") (λ _, "generated") 0).
  eapply rtc_l.
  { apply (step_register env_epoch "alice" "alice@example.com" "site" false
             empty_store (Ok (1%positive, alice))).
    vm_compute. reflexivity. }
  eapply rtc_l.
  { apply (step_register env_epoch "bob" "bob@example.com" "site" false
             store_untreated (Ok (2%positive, bob))).
    vm_compute. reflexivity. }
  eapply rtc_l.
  { eapply (step_accept draw 1 untreated_profile "site" false None false);
      vm_compute; reflexivity. }
  eapply rtc_l.
  { eapply (step_accept draw 2 (mkProfile 2 "untreated" None) "site" false None false);
      vm_compute; reflexivity. }
  apply rtc_refl.
Qed.

(** C5: the claim as written fails when the key is shared.  On a store
    the manager can produce, a profile with persisted status 'accepted'
    and the key exists, its account's join time plus the window is at
    most now, and yet the call does not return the none value: it raises
    [MultipleObjectsReturned], because a second accepted profile has the
    same key. *)
Lemma activate_user_fails_spec_counterexample :
  reachable store_duplicate_key ∧
  profiles store_duplicate_key !! 1%positive = Some accepted_profile ∧
  _status accepted_profile = "accepted" ∧
  activation_key accepted_profile = Some "key-alice" ∧
  users store_duplicate_key !! user_id accepted_profile = Some alice ∧
  window_closed env_late alice ∧
  activate_user env_late "key-alice" "site" None true None false store_duplicate_key
    = (Raise MultipleObjectsReturned, store_duplicate_key).
Proof.
  split; [exact reachable_store_duplicate_key |].
  do 4 (split; [reflexivity |]).
  split; [exact window_closed_alice |].
  vm_compute. reflexivity.
Qed.

(** C6, after one successful activation of the sample profile. *)
Lemma activate_user_twice_witness :
  (∃ pk profile,
     sole_match "key-alice" store_accepted pk profile ∧
     profiles (mkStore {[1%positive := activated env0 None alice]} ∅ [])
       = delete pk (profiles store_accepted)) ∧
  ∀ env' site' password' send_email' message' no_profile_delete',
    activate_user env' "key-alice" site' password' send_email' message' no_profile_delete'
      (mkStore {[1%positive := activated env0 None alice]} ∅ [])
      = (Ok None, mkStore {[1%positive := activated env0 None alice]} ∅ []).
Proof.
  apply (activate_user_twice env0 "key-alice" "site" None false None store_accepted
           (activated env0 None alice, "generated", true)).
  vm_compute. reflexivity.
Defined.

(** C6: the claim as written fails when the first call is told to keep
    the profile; the second call with the same key succeeds again. *)
Lemma activate_user_twice_counterexample :
  ∃ r1 s1 r2 s2,
    activate_user env0 "key-alice" "site" None true None true store_accepted
      = (Ok (Some r1), s1) ∧
    activate_user env0 "key-alice" "site" None true None true s1
      = (Ok (Some r2), s2).
Proof. eexists _, _, _, _. split; vm_compute; reflexivity. Qed.

(** C9, at the store whose only profile is accepted and orphaned. *)
Lemma delete_expired_users_orphan_witness :
  delete_expired_users env_late store_orphan_accepted
    = (Raise UserDoesNotExist, store_orphan_accepted).
Proof.
  apply (delete_expired_users_orphan env_late store_orphan_accepted 1 accepted_profile);
    reflexivity.
Defined.

(** * Beyond the workflow claims *)

(** ** Exact outcomes of accept and reject *)

Lemma store_eta s : mkStore (users s) (profiles s) (outbox s) = s.
Proof. by destruct s. Qed.

Lemma accept_registration_done env pk profile site send_email message force s u :
  users s !! user_id profile = Some u →
  force = true ∨ _status profile = "untreated" ∨ _status profile = "rejected" →
  let profile' := accept_profile env force profile u in
  let user' := accept_user env force profile u in
  ∃ s',
    accept_registration env pk profile site send_email message force s
      = (Ok (Some user', profile'), s') ∧
    users s' = <[user_id profile := user']> (users s) ∧
    profiles s' = <[pk := profile']> (profiles s) ∧
    outbox s' = outbox s ++ mails send_email (acceptance_mail env site message profile' user').
Proof.
  intros Hu Hc profile' user'. subst profile' user'.
  unfold accept_profile, accept_user.
  set (profile0 := if force then with_activation_key None profile else profile).
  assert (users s !! user_id profile0 = Some u) as Hu0 by (subst profile0; by destruct force).
  assert (force = false → _get_status env profile s = (Ok (_status profile), s)
            ∧ bool_decide (_status profile ∈ ["untreated"; "rejected"]) = true) as Hg.
  { intros ->. destruct Hc as [? | Hc]; [done |]. split.
    - apply _get_status_not_accepted. by destruct Hc as [-> | ->].
    - apply bool_decide_eq_true_2. rewrite !elem_of_cons. tauto. }
  unfold accept_registration, send_acceptance_email, _send_email, acceptance_mail, mails.
  destruct (truthy (activation_key profile0)) eqn:Hk; subst profile0;
    destruct force; try discriminate Hk; run;
    try (destruct (Hg eq_refl) as [-> ->]).
  - rewrite (_set_status_keep _ _ _ Hk). simpl.
    destruct send_email; simpl; rewrite ?Hu; simpl; rewrite ?Hu;
      eexists; (split; [reflexivity |]); simpl;
      rewrite (insert_id _ _ _ Hu), ?app_nil_r; done.
  - rewrite (_set_status_generate _ _ _ _ Hu0 Hk). simpl.
    destruct send_email; simpl; rewrite ?lookup_insert_eq; simpl;
      rewrite ?lookup_insert_eq; eexists; (split; [reflexivity |]); simpl;
      rewrite ?insert_insert_eq, ?app_nil_r; done.
  - rewrite (_set_status_generate _ _ _ _ Hu0 Hk). simpl.
    destruct send_email; simpl; rewrite ?lookup_insert_eq; simpl;
      rewrite ?lookup_insert_eq; eexists; (split; [reflexivity |]); simpl;
      rewrite ?insert_insert_eq, ?app_nil_r; done.
Qed.

(** Without the account row an acceptance either is refused by the guard
    or raises; the raise leaves nothing behind. *)
Lemma accept_registration_no_account env pk profile site send_email message force s :
  users s !! user_id profile = None →
  accept_registration env pk profile site send_email message force s
    = (if bool_decide (force = true ∨ _status profile ∈ ["untreated"; "rejected"; "accepted"])
       then Raise UserDoesNotExist else Ok (None, profile), s).
Proof.
  intros Hu. case_bool_decide as Hc;
  unfold accept_registration, _get_status, activation_key_expired, _set_status,
    send_acceptance_email, _send_email; run.
  - destruct force; simpl.
    + rewrite Hu. simpl. by rewrite store_eta.
    + case_decide as Hst; simpl; [| rewrite Hu; simpl; by rewrite store_eta].
      rewrite bool_decide_eq_true_2.
      * destruct (truthy (activation_key profile)); simpl; rewrite ?Hu; simpl;
          [destruct send_email; simpl; rewrite ?Hu; simpl |]; by rewrite store_eta.
      * destruct Hc as [? | Hc]; [done |].
        rewrite !elem_of_cons in *. rewrite elem_of_nil in *. tauto.
  - destruct force; [tauto |]. simpl.
    rewrite !elem_of_cons, elem_of_nil in Hc.
    rewrite decide_True by tauto. simpl.
    rewrite bool_decide_eq_false_2; [done |].
    rewrite !elem_of_cons, elem_of_nil. tauto.
Qed.

Lemma reject_registration_done env pk profile site send_email message s u :
  users s !! user_id profile = Some u →
  _status profile = "untreated" →
  ∃ s',
    reject_registration env pk profile site send_email message s
      = (Ok (Some u, cleared "rejected" profile), s') ∧
    users s' = users s ∧
    profiles s' = <[pk := cleared "rejected" profile]> (profiles s) ∧
    outbox s' = outbox s ++ mails send_email (rejection_mail env site message u).
Proof.
  intros Hu Hst.
  unfold reject_registration, send_rejection_email, _send_email, rejection_mail, mails. run.
  rewrite _get_status_not_accepted by (by rewrite Hst). rewrite Hst. simpl.
  rewrite _set_status_other by done. simpl.
  destruct send_email; simpl; rewrite ?Hu; simpl; rewrite ?Hu; eexists;
    (split; [reflexivity |]); simpl; rewrite ?app_nil_r; done.
Qed.

Lemma reject_registration_no_account env pk profile site send_email message s :
  users s !! user_id profile = None →
  reject_registration env pk profile site send_email message s
    = (if bool_decide (_status profile ∈ ["untreated"; "accepted"])
       then Raise UserDoesNotExist else Ok (None, profile), s).
Proof.
  intros Hu. case_bool_decide as Hc;
  unfold reject_registration, _get_status, activation_key_expired, _set_status,
    send_rejection_email, _send_email; run; rewrite !elem_of_cons, elem_of_nil in Hc.
  - case_decide as Hst; simpl; [| rewrite Hu; simpl; by rewrite store_eta].
    rewrite bool_decide_eq_true_2 by tauto. simpl.
    destruct (truthy (activation_key profile)); simpl;
      destruct send_email; simpl; rewrite ?Hu; simpl; by rewrite store_eta.
  - rewrite decide_True by tauto. simpl.
    rewrite bool_decide_eq_false_2; [done | tauto].
Qed.

(** ** Exact outcomes of activate and register *)

Lemma activate_user_done env key site password send_email message no_profile_delete
    s pk profile u :
  sole_match key s pk profile →
  users s !! user_id profile = Some u →
  ¬ window_closed env u →
  let pw := chosen_password env password in
  let is_generated := bool_decide (password = None) in
  let user' := activated env password u in
  ∃ s',
    activate_user env key site password send_email message no_profile_delete s
      = (Ok (Some (user', pw, is_generated)), s') ∧
    users s' = <[user_id profile := user']> (users s) ∧
    profiles s' = (if no_profile_delete then profiles s else delete pk (profiles s)) ∧
    outbox s' = outbox s ++ mails send_email (activation_mail env site message pw is_generated user').
Proof.
  intros Hm Hu Hw pw is_generated user'. subst pw is_generated user'.
  unfold activate_user, send_activation_email, _send_email, activation_mail, mails. run.
  rewrite (objects_get_sole _ _ _ _ Hm). simpl.
  rewrite (activation_key_expired_run _ _ _ _ Hu).
  rewrite bool_decide_eq_false_2 by tauto. simpl. rewrite Hu.
  destruct send_email, no_profile_delete; simpl; rewrite ?lookup_insert_eq; simpl;
    eexists; (split; [reflexivity |]); simpl; rewrite ?app_nil_r; done.
Qed.

Lemma activate_user_no_account env key site password send_email message
    no_profile_delete s pk profile :
  sole_match key s pk profile →
  users s !! user_id profile = None →
  activate_user env key site password send_email message no_profile_delete s
    = (Raise UserDoesNotExist, s).
Proof.
  intros Hm Hu. unfold activate_user. run.
  rewrite (objects_get_sole _ _ _ _ Hm). simpl.
  destruct Hm as (_ & Hst & _).
  rewrite activation_key_expired_orphan by done. by rewrite store_eta.
Qed.

Lemma objects_get_multiple key s pk1 pk2 p1 p2 :
  pk1 ≠ pk2 →
  profiles s !! pk1 = Some p1 → _status p1 = "accepted" → activation_key p1 = Some key →
  profiles s !! pk2 = Some p2 → _status p2 = "accepted" → activation_key p2 = Some key →
  objects_get key s = (Raise MultipleObjectsReturned, s).
Proof.
  intros Hne Hp1 Hs1 Hk1 Hp2 Hs2 Hk2. unfold objects_get.
  assert (accepted_with_key key (profiles s) !! pk1 = Some p1) as H1
    by (by apply accepted_with_key_lookup).
  assert (accepted_with_key key (profiles s) !! pk2 = Some p2) as H2
    by (by apply accepted_with_key_lookup).
  destruct (map_to_list (accepted_with_key key (profiles s))) as [| [k p] [| ? ?]] eqn:Hl;
    [| | done].
  - apply map_to_list_empty_iff in Hl. by rewrite Hl in H1.
  - rewrite <- (list_to_map_to_list (accepted_with_key key (profiles s))), Hl in H1, H2.
    simpl in H1, H2.
    apply lookup_insert_Some in H1 as [[<- _] | [_ H1]]; [| by rewrite lookup_empty in H1].
    apply lookup_insert_Some in H2 as [[<- _] | [_ H2]]; [done | by rewrite lookup_empty in H2].
Qed.

Lemma activate_user_multiple env key site password send_email message no_profile_delete
    s pk1 pk2 p1 p2 :
  pk1 ≠ pk2 →
  profiles s !! pk1 = Some p1 → _status p1 = "accepted" → activation_key p1 = Some key →
  profiles s !! pk2 = Some p2 → _status p2 = "accepted" → activation_key p2 = Some key →
  activate_user env key site password send_email message no_profile_delete s
    = (Raise MultipleObjectsReturned, s).
Proof.
  intros. unfold activate_user. run.
  erewrite objects_get_multiple by done. simpl. by rewrite store_eta.
Qed.

Lemma register_done env name mail site send_email s :
  ¬ username_taken name s →
  ¬ user_id_taken (fresh (dom (users s))) s →
  let uid := fresh (dom (users s)) in
  let pk := fresh (dom (profiles s)) in
  let new_user := mkUser name mail UnusablePassword false (datetime_now env) in
  ∃ s',
    register env name mail site send_email s = (Ok (uid, new_user), s') ∧
    users s' = <[uid := new_user]> (users s) ∧
    profiles s' = <[pk := mkProfile uid "untreated" None]> (profiles s) ∧
    outbox s' = outbox s ++ mails send_email (registration_mail env site new_user).
Proof.
  intros Hname Huid uid pk new_user. subst uid pk new_user.
  unfold username_taken, user_id_taken in *.
  unfold register, create_user, objects_create, send_registration_email, _send_email,
    registration_mail, mails. run.
  rewrite decide_False by done. simpl.
  rewrite decide_False by done. simpl.
  destruct send_email; simpl; rewrite ?lookup_insert_eq; simpl; eexists;
    (split; [reflexivity |]); simpl; rewrite ?insert_insert_eq, ?app_nil_r; done.
Qed.

Lemma register_Raise env name mail site send_email s e s' :
  register env name mail site send_email s = (Raise e, s') →
  s' = s ∧ e = IntegrityError ∧
  (username_taken name s ∨ user_id_taken (fresh (dom (users s))) s).
Proof.
  unfold username_taken, user_id_taken.
  unfold register, create_user, objects_create, send_registration_email, _send_email. run.
  case_decide as Hn; simpl.
  - intros [= <- <-]. rewrite store_eta. auto.
  - case_decide as Hp; simpl.
    + intros [= <- <-]. rewrite store_eta. auto.
    + destruct send_email; simpl; rewrite ?lookup_insert_eq; simpl; discriminate.
Qed.

(** ** The sweeps, exactly *)

Lemma delete_rejected_users_body_cases env pk p s :
  (delete_rejected_users_body env (pk, p) s = (Ok tt, s) ∧ ¬ rejected_inactive s p) ∨
  (delete_rejected_users_body env (pk, p) s = (Ok tt, swept pk p s) ∧ rejected_inactive s p) ∨
  (delete_rejected_users_body env (pk, p) s = (Raise UserDoesNotExist, s) ∧
   _status p = "accepted" ∧ users s !! user_id p = None).
Proof.
  unfold delete_rejected_users_body. run.
  destruct (decide (_status p = "accepted")) as [Hst | Hst].
  - destruct (users s !! user_id p) as [u |] eqn:Hu.
    + rewrite (_get_status_run _ _ _ _ Hu).
      rewrite bool_decide_eq_false_2 by (case_bool_decide; congruence).
      left. split; [done |]. intros [? _]. congruence.
    + right; right. unfold _get_status. run.
      by rewrite activation_key_expired_orphan.
  - rewrite _get_status_not_accepted by done.
    case_bool_decide as Hr.
    + destruct (users s !! user_id p) as [u |] eqn:Hu.
      * rewrite (delete_inactive_run _ _ _ _ Hu).
        destruct (is_active u) eqn:Ha.
        -- left. split; [done |]. intros [_ Hall]. specialize (Hall u Hu). congruence.
        -- right; left. split; [done |]. split; [done |]. intros u' Hu'. congruence.
      * right; left. split.
        -- unfold delete_inactive. run. rewrite Hu. simpl.
           unfold swept. by rewrite (delete_id _ _ Hu).
        -- split; [done |]. intros u' Hu'. congruence.
    + left. split; [done |]. by intros [? _].
Qed.

Section Sweep.

(** A loop body that, for each row, leaves the store, deletes the row
    together with its account, or raises on an accepted profile without
    account, according to a condition on the row and its account. *)
Variable body : positive * RegistrationProfile → M unit.
Variable doomed : Store → RegistrationProfile → Prop.

Hypothesis body_cases : ∀ pk p s,
  (body (pk, p) s = (Ok tt, s) ∧ ¬ doomed s p) ∨
  (body (pk, p) s = (Ok tt, swept pk p s) ∧ doomed s p) ∨
  (body (pk, p) s = (Raise UserDoesNotExist, s) ∧
   _status p = "accepted" ∧ users s !! user_id p = None).

Hypothesis doomed_ext : ∀ s s' p,
  users s !! user_id p = users s' !! user_id p → doomed s p → doomed s' p.

Lemma sweep_loop_shrinks l : ∀ s r s',
  for_each l body s = (r, s') →
  profiles s' ⊆ profiles s ∧ users s' ⊆ users s ∧ outbox s' = outbox s.
Proof.
  induction l as [| [pk0 p0] l IH]; intros s r s'.
  - by intros [= _ <-].
  - rewrite for_each_cons.
    destruct (body_cases pk0 p0 s) as [[-> _] | [[-> _] | [-> _]]].
    + apply IH.
    + intros (Hp & Hu & Ho)%IH. simpl in *.
      split; [| split; [| done]].
      * etrans; [done | apply delete_subseteq].
      * etrans; [done | apply delete_subseteq].
    + by intros [= _ <-].
Qed.

Lemma sweep_loop_effect l : ∀ s,
  NoDup ((λ row, user_id row.2) <$> l) →
  (∀ pk p, (pk, p) ∈ l → _status p = "accepted" → is_Some (users s !! user_id p)) →
  ∃ s',
    for_each l body s = (Ok tt, s') ∧
    (∀ pk p, (pk, p) ∈ l → doomed s p →
       profiles s' !! pk = None ∧ users s' !! user_id p = None) ∧
    (∀ pk, (∀ p, (pk, p) ∈ l → ¬ doomed s p) → profiles s' !! pk = profiles s !! pk) ∧
    (∀ uid, (∀ pk p, (pk, p) ∈ l → user_id p = uid → ¬ doomed s p) →
       users s' !! uid = users s !! uid).
Proof.
  induction l as [| [pk0 p0] l IH]; intros s Hnd Hall.
  - exists s. split; [done |]. split; [| done].
    intros pk p Hin. by apply elem_of_nil in Hin.
  - rewrite for_each_cons. rewrite fmap_cons in Hnd.
    apply NoDup_cons in Hnd as [Hfresh Hnd]. simpl in Hfresh.
    assert (∀ pk p, (pk, p) ∈ l → user_id p ≠ user_id p0) as Hother.
    { intros pk p Hin Heq. apply Hfresh, list_elem_of_fmap. by exists (pk, p). }
    destruct (body_cases pk0 p0 s) as [[-> Hn] | [[-> Hd] | [_ [Hst Hu]]]].
    + destruct (IH s Hnd) as (s' & Hrun & Ha & Hb & Hc).
      { intros pk p Hin. apply (Hall pk p). by apply elem_of_cons; right. }
      exists s'. split; [done |]. split; [| split].
      * intros pk p [[= -> ->] | Hin]%elem_of_cons Hdp; [done | by eapply Ha].
      * intros pk Hpk. apply Hb. intros p Hin. apply Hpk. by apply elem_of_cons; right.
      * intros uid Huid. apply Hc. intros pk p Hin. apply (Huid pk p).
        by apply elem_of_cons; right.
    + destruct (IH (swept pk0 p0 s) Hnd) as (s' & Hrun & Ha & Hb & Hc).
      { intros pk p Hin Hst. simpl. rewrite lookup_delete_ne by (symmetry; by eapply Hother).
        apply (Hall pk p); [by apply elem_of_cons; right | done]. }
      destruct (sweep_loop_shrinks _ _ _ _ Hrun) as (Hps & Hus & _).
      exists s'. split; [done |]. split; [| split].
      * intros pk p [[= -> ->] | Hin]%elem_of_cons Hdp.
        -- split.
           ++ eapply lookup_weaken_None; [| exact Hps]. simpl. apply lookup_delete_eq.
           ++ eapply lookup_weaken_None; [| exact Hus]. simpl. apply lookup_delete_eq.
        -- eapply Ha; [done |]. eapply doomed_ext; [| exact Hdp].
           simpl. rewrite lookup_delete_ne; [done |]. symmetry. by eapply Hother.
      * intros pk Hpk.
        assert (pk ≠ pk0) as Hne.
        { intros ->. eapply Hpk; [| exact Hd]. by apply elem_of_cons; left. }
        rewrite Hb; [simpl; by rewrite lookup_delete_ne |].
        intros p Hin Hdp. eapply Hpk; [by apply elem_of_cons; right |].
        eapply doomed_ext; [| exact Hdp].
        simpl. rewrite lookup_delete_ne; [done |]. symmetry. by eapply Hother.
      * intros uid Huid.
        assert (uid ≠ user_id p0) as Hne.
        { intros ->. eapply Huid; [| done | exact Hd]. by apply elem_of_cons; left. }
        rewrite Hc; [simpl; by rewrite lookup_delete_ne |].
        intros pk p Hin Heq Hdp. eapply Huid; [by apply elem_of_cons; right | done |].
        eapply doomed_ext; [| exact Hdp].
        simpl. rewrite lookup_delete_ne; [done |]. symmetry. by eapply Hother.
    + destruct (Hall pk0 p0) as [u Hu']; [by apply elem_of_cons; left | done |].
      congruence.
Qed.

(** The whole sweep on a store that pairs one to one and holds the
    account of every accepted profile. *)
Lemma sweep_effect s :
  one_to_one s → accepted_have_accounts s →
  ∃ s',
    transaction_atomic (all ← objects_all; for_each all body) s = (Ok tt, s') ∧
    outbox s' = outbox s ∧
    (∀ pk p, profiles s !! pk = Some p →
       (doomed s p → profiles s' !! pk = None ∧ users s' !! user_id p = None) ∧
       (¬ doomed s p →
          profiles s' !! pk = Some p ∧ users s' !! user_id p = users s !! user_id p)) ∧
    (∀ pk, profiles s !! pk = None → profiles s' !! pk = None) ∧
    (∀ uid, (∀ pk p, profiles s !! pk = Some p → user_id p ≠ uid) →
       users s' !! uid = users s !! uid).
Proof.
  intros H11 Hacc.
  destruct (sweep_loop_effect (map_to_list (profiles s)) s) as (s' & Hrun & Ha & Hb & Hc).
  - apply NoDup_fmap_2_strong; [| apply NoDup_map_to_list].
    intros [k1 p1] [k2 p2] H1%elem_of_map_to_list H2%elem_of_map_to_list Heq.
    simpl in Heq. assert (k1 = k2) as -> by (by eapply H11). congruence.
  - intros pk p Hin%elem_of_map_to_list. by apply (Hacc pk p).
  - destruct (sweep_loop_shrinks _ _ _ _ Hrun) as (Hps & _ & Ho).
    exists s'. split; [| split; [done |]].
    { unfold transaction_atomic, objects_all. run. by rewrite Hrun. }
    split; [| split].
    + intros pk p Hp. split.
      * intros Hd. apply (Ha pk p); [by apply elem_of_map_to_list | done].
      * intros Hn. split.
        -- rewrite Hb; [done |]. intros p' Hin%elem_of_map_to_list. congruence.
        -- apply Hc. intros pk' p' Hin%elem_of_map_to_list Heq.
           assert (pk' = pk) as -> by (by eapply H11). congruence.
    + intros pk Hp. by eapply lookup_weaken_None.
    + intros uid Hno. apply Hc. intros pk p Hin%elem_of_map_to_list Heq.
      by destruct (Hno pk p Hin).
Qed.

End Sweep.

Lemma expired_inactive_ext env s s' p :
  users s !! user_id p = users s' !! user_id p →
  expired_inactive env s p → expired_inactive env s' p.
Proof. intros Heq (Hst & u & Hu & ?). split; [done |]. exists u. by rewrite <- Heq. Qed.

Lemma rejected_inactive_ext s s' p :
  users s !! user_id p = users s' !! user_id p →
  rejected_inactive s p → rejected_inactive s' p.
Proof. intros Heq [Hst Hall]. split; [done |]. intros u. rewrite <- Heq. apply Hall. Qed.

(** X: [delete_expired_users], exactly.  On a store that pairs accounts
    and profiles one to one and holds the account of every accepted
    profile, the sweep returns; it deletes every profile whose key has
    expired and whose account is inactive, together with that account; it
    leaves every other profile and its account, and every account without
    profile, as they were; it creates nothing and sends no mail. *)
Theorem delete_expired_users_effect env s :
  one_to_one s → accepted_have_accounts s →
  ∃ s',
    delete_expired_users env s = (Ok tt, s') ∧
    outbox s' = outbox s ∧
    (∀ pk p, profiles s !! pk = Some p →
       (expired_inactive env s p →
          profiles s' !! pk = None ∧ users s' !! user_id p = None) ∧
       (¬ expired_inactive env s p →
          profiles s' !! pk = Some p ∧ users s' !! user_id p = users s !! user_id p)) ∧
    (∀ pk, profiles s !! pk = None → profiles s' !! pk = None) ∧
    (∀ uid, (∀ pk p, profiles s !! pk = Some p → user_id p ≠ uid) →
       users s' !! uid = users s !! uid).
Proof.
  apply (sweep_effect (delete_expired_users_body env) (expired_inactive env)).
  - apply delete_expired_users_body_cases.
  - apply expired_inactive_ext.
Qed.

(** X: [delete_rejected_users], exactly.  On such a store the sweep
    returns; it deletes every rejected profile whose account is inactive
    or missing, together with the account if there is one; it leaves
    every other profile and its account, and every account without
    profile, as they were; it sends no mail. *)
Theorem delete_rejected_users_effect env s :
  one_to_one s → accepted_have_accounts s →
  ∃ s',
    delete_rejected_users env s = (Ok tt, s') ∧
    outbox s' = outbox s ∧
    (∀ pk p, profiles s !! pk = Some p →
       (rejected_inactive s p →
          profiles s' !! pk = None ∧ users s' !! user_id p = None) ∧
       (¬ rejected_inactive s p →
          profiles s' !! pk = Some p ∧ users s' !! user_id p = users s !! user_id p)) ∧
    (∀ pk, profiles s !! pk = None → profiles s' !! pk = None) ∧
    (∀ uid, (∀ pk p, profiles s !! pk = Some p → user_id p ≠ uid) →
       users s' !! uid = users s !! uid).
Proof.
  apply (sweep_effect (delete_rejected_users_body env) rejected_inactive).
  - apply delete_rejected_users_body_cases.
  - apply rejected_inactive_ext.
Qed.

Section SweepRaises.

Variable body : positive * RegistrationProfile → M unit.
Variable doomed : Store → RegistrationProfile → Prop.

Hypothesis body_cases : ∀ pk p s,
  (body (pk, p) s = (Ok tt, s) ∧ ¬ doomed s p) ∨
  (body (pk, p) s = (Ok tt, swept pk p s) ∧ doomed s p) ∨
  (body (pk, p) s = (Raise UserDoesNotExist, s) ∧
   _status p = "accepted" ∧ users s !! user_id p = None).

Hypothesis body_orphan : ∀ pk p s,
  _status p = "accepted" → users s !! user_id p = None →
  body (pk, p) s = (Raise UserDoesNotExist, s).

Lemma sweep_loop_raises l : ∀ s pk p,
  (pk, p) ∈ l → _status p = "accepted" → users s !! user_id p = None →
  ∃ s', for_each l body s = (Raise UserDoesNotExist, s') ∧ outbox s' = outbox s.
Proof.
  induction l as [| [pk0 p0] l IH]; intros s pk p Hin Hst Hu.
  - by apply elem_of_nil in Hin.
  - rewrite for_each_cons.
    apply elem_of_cons in Hin as [[= <- <-] | Hin].
    { rewrite body_orphan by done. by exists s. }
    destruct (body_cases pk0 p0 s) as [[-> _] | [[-> _] | [-> _]]].
    + by eapply IH.
    + destruct (IH (swept pk0 p0 s) pk p Hin Hst) as (s' & -> & Ho).
      { simpl. by apply lookup_delete_None; right. }
      by exists s'.
    + by exists s.
Qed.

(** A sweep over a store with an accepted profile whose account is
    missing raises and leaves the store as it was. *)
Lemma sweep_raises s pk p :
  profiles s !! pk = Some p → _status p = "accepted" → users s !! user_id p = None →
  transaction_atomic (all ← objects_all; for_each all body) s
    = (Raise UserDoesNotExist, s).
Proof.
  intros Hp Hst Hu.
  assert ((pk, p) ∈ map_to_list (profiles s)) as Hin by (by apply elem_of_map_to_list).
  destruct (sweep_loop_raises _ s pk p Hin Hst Hu) as (s' & Hloop & Ho).
  unfold transaction_atomic, objects_all. run. rewrite Hloop, Ho.
  by rewrite store_eta.
Qed.

Lemma sweep_loop_outbox l : ∀ s r s',
  for_each l body s = (r, s') → outbox s' = outbox s.
Proof.
  induction l as [| [pk0 p0] l IH]; intros s r s'.
  - by intros [= _ <-].
  - rewrite for_each_cons.
    destruct (body_cases pk0 p0 s) as [[-> _] | [[-> _] | [-> _]]].
    + apply IH.
    + by intros ->%IH.
    + by intros [= _ <-].
Qed.

(** A sweep that raises leaves the store as it was. *)
Lemma sweep_Raise s e s' :
  transaction_atomic (all ← objects_all; for_each all body) s = (Raise e, s') → s' = s.
Proof.
  unfold transaction_atomic, objects_all. run.
  destruct (for_each _ _ s) as [[[] | e'] s1] eqn:Hloop; [discriminate |].
  intros [= _ <-].
  rewrite (sweep_loop_outbox _ _ _ _ Hloop). apply store_eta.
Qed.

End SweepRaises.

(** X: the rejected sweep stops at an accepted orphan too.  When some
    profile has persisted status 'accepted' and its account is missing,
    [delete_rejected_users] raises from the status getter and leaves the
    store as it was, whatever rejected profiles there are to delete. *)
Theorem delete_rejected_users_accepted_orphan env s pk p :
  profiles s !! pk = Some p →
  _status p = "accepted" →
  users s !! user_id p = None →
  delete_rejected_users env s = (Raise UserDoesNotExist, s).
Proof.
  apply (sweep_raises (delete_rejected_users_body env) rejected_inactive).
  - apply delete_rejected_users_body_cases.
  - intros pk0 p0 s0 Hst Hu. unfold delete_rejected_users_body, _get_status. run.
    by rewrite activation_key_expired_orphan.
Qed.

(** ** Calls that raise *)

Lemma register_refused env name mail site send_email s :
  username_taken name s ∨ user_id_taken (fresh (dom (users s))) s →
  register env name mail site send_email s = (Raise IntegrityError, s).
Proof.
  unfold username_taken, user_id_taken.
  intros Htaken.
  unfold register, create_user, objects_create. run.
  case_decide as Hn; simpl; [by rewrite store_eta |].
  destruct Htaken as [? | Hp]; [done |].
  rewrite decide_True by done. simpl. by rewrite store_eta.
Qed.

Lemma accept_registration_Raise env pk profile site send_email message force s e s' :
  accept_registration env pk profile site send_email message force s = (Raise e, s') →
  s' = s ∧ e = UserDoesNotExist ∧ users s !! user_id profile = None.
Proof.
  destruct (users s !! user_id profile) as [u |] eqn:Hu.
  - destruct (decide (force = true ∨ _status profile = "untreated"
                      ∨ _status profile = "rejected")) as [Hc | Hc].
    + destruct (accept_registration_done env pk profile site send_email message
                  force s u Hu Hc) as (s1 & -> & _). discriminate.
    + assert (force = false) as -> by (destruct force; tauto).
      rewrite (accept_registration_refused env pk profile site send_email message s u)
        by tauto.
      discriminate.
  - rewrite accept_registration_no_account by done.
    case_bool_decide; [by intros [= <- <-] | discriminate].
Qed.

Lemma reject_registration_Raise env pk profile site send_email message s e s' :
  reject_registration env pk profile site send_email message s = (Raise e, s') →
  s' = s ∧ e = UserDoesNotExist ∧ users s !! user_id profile = None.
Proof.
  destruct (users s !! user_id profile) as [u |] eqn:Hu.
  - destruct (decide (_status profile = "untreated")) as [Hc | Hc].
    + destruct (reject_registration_done env pk profile site send_email message
                  s u Hu Hc) as (s1 & -> & _). discriminate.
    + rewrite (reject_registration_refused env pk profile site send_email message s u)
        by done.
      discriminate.
  - rewrite reject_registration_no_account by done.
    case_bool_decide; [by intros [= <- <-] | discriminate].
Qed.

Lemma objects_get_store key s r s' : objects_get key s = (r, s') → s' = s.
Proof.
  unfold objects_get.
  destruct (map_to_list _) as [| ? [| ? ?]]; by intros [= _ <-].
Qed.

Lemma activate_user_Raise env key site password send_email message no_profile_delete
    s e s' :
  activate_user env key site password send_email message no_profile_delete s
    = (Raise e, s') →
  s' = s.
Proof.
  unfold activate_user, send_activation_email, _send_email. run.
  destruct (objects_get key s) as [[[pk profile] | e0] s0] eqn:Hget; simpl.
  - apply objects_get_Ok in Hget as [-> (_ & Hst & _)]. simpl in Hst.
    destruct (users s !! user_id profile) as [u |] eqn:Hu.
    + rewrite (activation_key_expired_run _ _ _ _ Hu).
      case_bool_decide; simpl; [discriminate |]. rewrite Hu.
      destruct send_email, no_profile_delete; simpl; rewrite ?lookup_insert_eq; simpl;
        discriminate.
    + rewrite activation_key_expired_orphan by done.
      intros [= _ <-]. apply store_eta.
  - apply objects_get_store in Hget as ->.
    destruct (model_DoesNotExist e0); simpl; [discriminate |].
    intros [= _ <-]. apply store_eta.
Qed.

(** ** Well-formed stores *)

Lemma activate_user_outcome env key site password send_email message no_profile_delete
    s r s' :
  activate_user env key site password send_email message no_profile_delete s = (r, s') →
  s' = s ∨
  ∃ pk profile u,
    sole_match key s pk profile ∧
    users s !! user_id profile = Some u ∧
    ¬ window_closed env u ∧
    r = Ok (Some (activated env password u, chosen_password env password,
                  bool_decide (password = None))) ∧
    users s' = <[user_id profile := activated env password u]> (users s) ∧
    profiles s' = (if no_profile_delete then profiles s else delete pk (profiles s)) ∧
    outbox s' = outbox s ++
      mails send_email (activation_mail env site message (chosen_password env password)
                          (bool_decide (password = None)) (activated env password u)).
Proof.
  destruct r as [[a |] | e].
  - intros Hrun. right.
    destruct (activate_user_Some _ _ _ _ _ _ _ _ _ _ Hrun) as (pk & profile & Hm & _).
    destruct (users s !! user_id profile) as [u |] eqn:Hu.
    + destruct (decide (window_closed env u)) as [Hw | Hw].
      * rewrite (activate_user_expired env key site password send_email message
                   no_profile_delete s pk profile u Hm Hu Hw) in Hrun. discriminate.
      * destruct (activate_user_done env key site password send_email message
                    no_profile_delete s pk profile u Hm Hu Hw)
          as (s1 & Hrun' & ? & ? & ?).
        rewrite Hrun' in Hrun. injection Hrun as <- <-.
        by exists pk, profile, u.
    + rewrite (activate_user_no_account env key site password send_email message
                 no_profile_delete s pk profile Hm Hu) in Hrun. discriminate.
  - intros Hrun. left.
    revert Hrun. unfold activate_user, send_activation_email, _send_email. run.
    destruct (objects_get key s) as [[[pk profile] | e] s0] eqn:Hget; simpl.
    + apply objects_get_Ok in Hget as [-> (_ & Hst & _)]. simpl in Hst.
      destruct (users s !! user_id profile) as [u |] eqn:Hu.
      * rewrite (activation_key_expired_run _ _ _ _ Hu).
        case_bool_decide; simpl; [by intros [= <-] |]. rewrite Hu.
        destruct send_email, no_profile_delete; simpl; rewrite ?lookup_insert_eq; simpl;
          discriminate.
      * rewrite activation_key_expired_orphan by done. discriminate.
    + apply objects_get_store in Hget as ->.
      destruct (model_DoesNotExist e); simpl; [by intros [= <-] | discriminate].
  - intros Hrun. left. by eapply activate_user_Raise.
Qed.

Lemma well_formed_empty : well_formed empty_store.
Proof.
  split; [| split]; intros pk; intros; simpl in *; by rewrite lookup_empty in *.
Qed.

(** Deleting rows keeps a store well formed as long as every remaining
    profile keeps its account. *)
Lemma well_formed_shrink s s' :
  profiles s' ⊆ profiles s →
  (∀ pk p, profiles s' !! pk = Some p → is_Some (users s' !! user_id p)) →
  well_formed s → well_formed s'.
Proof.
  intros Hsub Horph (H11 & _ & Hval). split; [| split].
  - intros pk1 pk2 p1 p2 H1 H2. eapply H11; by eapply lookup_weaken.
  - done.
  - intros pk p Hp. eapply Hval. by eapply lookup_weaken.
Qed.

(** Replacing the row at [pk] by one for the same user, with a valid
    status, while accounts are only added or replaced. *)
Lemma well_formed_update s s' pk p p' :
  profiles s !! pk = Some p →
  user_id p' = user_id p →
  valid_status (_status p') →
  profiles s' = <[pk := p']> (profiles s) →
  (∀ uid, is_Some (users s !! uid) → is_Some (users s' !! uid)) →
  well_formed s → well_formed s'.
Proof.
  intros Hp Hid Hv Hps Hus (H11 & Horph & Hval). split; [| split].
  - intros pk1 pk2 p1 p2. rewrite Hps, !lookup_insert.
    repeat case_decide; subst.
    + done.
    + intros [= <-] H2 Heq. symmetry. eapply H11; [done | exact Hp | congruence].
    + intros H1 [= <-] Heq. eapply H11; [done | exact Hp | congruence].
    + apply H11.
  - intros pk0 p0. rewrite Hps, lookup_insert. case_decide; subst.
    + intros [= <-]. rewrite Hid. apply Hus. by eapply Horph.
    + intros Hp0. apply Hus. by eapply Horph.
  - intros pk0 p0. rewrite Hps, lookup_insert. case_decide; subst.
    + by intros [= <-].
    + apply Hval.
Qed.

Lemma valid_status_untreated : valid_status "untreated".
Proof. apply valid_status_cases. tauto. Qed.
Lemma valid_status_accepted : valid_status "accepted".
Proof. apply valid_status_cases. tauto. Qed.
Lemma valid_status_rejected : valid_status "rejected".
Proof. apply valid_status_cases. tauto. Qed.

Lemma accept_profile_fields env force profile u :
  user_id (accept_profile env force profile u) = user_id profile ∧
  _status (accept_profile env force profile u) = "accepted" ∧
  activation_key (accept_profile env force profile u) ≠ None.
Proof.
  unfold accept_profile.
  destruct (truthy _) eqn:Hk; simpl; [| done].
  apply truthy_true_Some in Hk as (v & Hv & _).
  destruct force; simpl in *; [discriminate |]. by rewrite Hv.
Qed.

Lemma register_preserves_well_formed env name mail site send_email s r s' :
  register env name mail site send_email s = (r, s') →
  well_formed s → well_formed s'.
Proof.
  intros Hrun Hwf.
  destruct (decide (username_taken name s)) as [Hn | Hn].
  { rewrite register_refused in Hrun by auto. by injection Hrun as _ <-. }
  destruct (decide (user_id_taken (fresh (dom (users s))) s)) as [Hp | Hp].
  { rewrite register_refused in Hrun by auto. by injection Hrun as _ <-. }
  destruct (register_done env name mail site send_email s Hn Hp)
    as (s1 & Hrun' & Hus & Hps & _).
  rewrite Hrun' in Hrun. injection Hrun as _ <-.
  destruct Hwf as (H11 & Horph & Hval).
  assert (profiles s !! fresh (dom (profiles s)) = None) as Hpk
    by (apply not_elem_of_dom, is_fresh).
  assert (∀ pk p, profiles s !! pk = Some p → user_id p ≠ fresh (dom (users s))) as Hnew.
  { intros pk p Hp0 Heq. apply Hp. by exists pk, p. }
  split; [| split].
  - intros pk1 pk2 p1 p2. rewrite Hps, !lookup_insert.
    repeat case_decide; subst; try done.
    + intros [= <-] H2 Heq. simpl in Heq. by destruct (Hnew _ _ H2).
    + intros H1 [= <-] Heq. simpl in Heq. by destruct (Hnew _ _ H1).
    + apply H11.
  - intros pk p. rewrite Hps, Hus, lookup_insert. case_decide; subst.
    + intros [= <-]. simpl. by rewrite lookup_insert_eq.
    + intros Hp0. rewrite lookup_insert_ne by (symmetry; by eapply Hnew).
      by eapply Horph.
  - intros pk p. rewrite Hps, lookup_insert. case_decide; subst.
    + intros [= <-]. apply valid_status_untreated.
    + apply Hval.
Qed.

Lemma accept_preserves_well_formed env pk profile site send_email message force s r s' :
  profiles s !! pk = Some profile →
  accept_registration env pk profile site send_email message force s = (r, s') →
  well_formed s → well_formed s'.
Proof.
  intros Hp Hrun Hwf.
  destruct (users s !! user_id profile) as [u |] eqn:Hu.
  - destruct (decide (force = true ∨ _status profile = "untreated"
                      ∨ _status profile = "rejected")) as [Hc | Hc].
    + destruct (accept_registration_done env pk profile site send_email message
                  force s u Hu Hc) as (s1 & Hrun' & Hus & Hps & _).
      rewrite Hrun' in Hrun. injection Hrun as _ <-.
      destruct (accept_profile_fields env force profile u) as (Hid & Hst & _).
      eapply well_formed_update; [exact Hp | exact Hid | | exact Hps | | exact Hwf].
      * rewrite Hst. apply valid_status_accepted.
      * intros uid. rewrite Hus, lookup_insert. by case_decide.
    + assert (force = false) as -> by (destruct force; tauto).
      rewrite (accept_registration_refused env pk profile site send_email message s u)
        in Hrun by tauto.
      by injection Hrun as _ <-.
  - rewrite accept_registration_no_account in Hrun by done.
    by injection Hrun as _ <-.
Qed.

Lemma reject_preserves_well_formed env pk profile site send_email message s r s' :
  profiles s !! pk = Some profile →
  reject_registration env pk profile site send_email message s = (r, s') →
  well_formed s → well_formed s'.
Proof.
  intros Hp Hrun Hwf.
  destruct (users s !! user_id profile) as [u |] eqn:Hu.
  - destruct (decide (_status profile = "untreated")) as [Hc | Hc].
    + destruct (reject_registration_done env pk profile site send_email message
                  s u Hu Hc) as (s1 & Hrun' & Hus & Hps & _).
      rewrite Hrun' in Hrun. injection Hrun as _ <-.
      eapply well_formed_update; [exact Hp | | | exact Hps | | exact Hwf].
      * done.
      * apply valid_status_rejected.
      * intros uid. by rewrite Hus.
    + rewrite (reject_registration_refused env pk profile site send_email message s u)
        in Hrun by done.
      by injection Hrun as _ <-.
  - rewrite reject_registration_no_account in Hrun by done.
    by injection Hrun as _ <-.
Qed.

Lemma activate_preserves_well_formed env key site password send_email message
    no_profile_delete s r s' :
  activate_user env key site password send_email message no_profile_delete s = (r, s') →
  well_formed s → well_formed s'.
Proof.
  intros Hrun Hwf.
  apply activate_user_outcome in Hrun
    as [-> | (pk & profile & u & Hm & Hu & _ & _ & Hus & Hps & _)]; [done |].
  eapply well_formed_shrink; [| | exact Hwf].
  - rewrite Hps. destruct no_profile_delete; [done | apply delete_subseteq].
  - intros pk0 p0 Hp0.
    assert (profiles s !! pk0 = Some p0) as Hp0'.
    { rewrite Hps in Hp0. destruct no_profile_delete; [done |].
      by apply lookup_delete_Some in Hp0 as [_ ?]. }
    rewrite Hus, lookup_insert. case_decide; [done |].
    destruct Hwf as (_ & Horph & _). by eapply Horph.
Qed.

Lemma no_orphans_accepted_have_accounts s :
  no_orphans s → accepted_have_accounts s.
Proof. intros Horph pk p Hp _. by eapply Horph. Qed.

Section SweepWellFormed.

Variable body : positive * RegistrationProfile → M unit.
Variable doomed : Store → RegistrationProfile → Prop.

Hypothesis body_cases : ∀ pk p s,
  (body (pk, p) s = (Ok tt, s) ∧ ¬ doomed s p) ∨
  (body (pk, p) s = (Ok tt, swept pk p s) ∧ doomed s p) ∨
  (body (pk, p) s = (Raise UserDoesNotExist, s) ∧
   _status p = "accepted" ∧ users s !! user_id p = None).

Hypothesis doomed_ext : ∀ s s' p,
  users s !! user_id p = users s' !! user_id p → doomed s p → doomed s' p.

Lemma sweep_preserves_well_formed s r s' :
  transaction_atomic (all ← objects_all; for_each all body) s = (r, s') →
  well_formed s → well_formed s'.
Proof.
  intros Hrun Hwf. pose proof Hwf as (H11 & Horph & _).
  destruct (sweep_effect body doomed body_cases doomed_ext s H11
              (no_orphans_accepted_have_accounts s Horph))
    as (s1 & Hrun' & _ & Hrows & Hnone & _).
  rewrite Hrun' in Hrun. injection Hrun as _ <-.
  eapply well_formed_shrink; [| | exact Hwf].
  - apply map_subseteq_spec. intros pk p Hp.
    destruct (profiles s !! pk) as [p0 |] eqn:Hp0.
    + destruct (Hrows pk p0 Hp0) as [Hd Hn].
      assert (¬ doomed s p0) as Hnd.
      { intros Hdp. destruct (Hd Hdp) as [Hgone _]. congruence. }
      destruct (Hn Hnd) as [Hkept _]. congruence.
    + rewrite (Hnone pk Hp0) in Hp. discriminate.
  - intros pk p Hp.
    destruct (profiles s !! pk) as [p0 |] eqn:Hp0.
    + destruct (Hrows pk p0 Hp0) as [Hd Hn].
      assert (¬ doomed s p0) as Hnd.
      { intros Hdp. destruct (Hd Hdp) as [Hgone _]. congruence. }
      destruct (Hn Hnd) as [Hkept Huser].
      assert (p = p0) as -> by congruence.
      rewrite Huser. by eapply Horph.
    + rewrite (Hnone pk Hp0) in Hp. discriminate.
Qed.

End SweepWellFormed.

Lemma step_preserves_well_formed s s' :
  well_formed s → step s s' → well_formed s'.
Proof.
  intros Hwf Hstep. destruct Hstep.
  - by eapply register_preserves_well_formed.
  - by eapply accept_preserves_well_formed.
  - by eapply reject_preserves_well_formed.
  - by eapply activate_preserves_well_formed.
  - eapply (sweep_preserves_well_formed (delete_expired_users_body _)
              (expired_inactive _)); [| | done | done].
    + apply delete_expired_users_body_cases.
    + apply expired_inactive_ext.
  - eapply (sweep_preserves_well_formed (delete_rejected_users_body _)
              rejected_inactive); [| | done | done].
    + apply delete_rejected_users_body_cases.
    + apply rejected_inactive_ext.
Qed.

Lemma reachable_is_well_formed s : reachable s → well_formed s.
Proof.
  revert s. unfold reachable. apply rtc_ind_r.
  - apply well_formed_empty.
  - intros s1 s2 _ Hstep Hwf. by eapply step_preserves_well_formed.
Qed.

(** X: the stores the manager produces are well formed.  The empty store
    pairs accounts and profiles one to one, has no profile without
    account and only statuses from [STATUS_LIST]; every manager operation
    keeps these three properties; hence they hold of every reachable
    store. *)
Theorem well_formed_invariant :
  well_formed empty_store ∧
  (∀ s s', well_formed s → step s s' → well_formed s') ∧
  (∀ s, reachable s →
     (∀ pk1 pk2 p1 p2, profiles s !! pk1 = Some p1 → profiles s !! pk2 = Some p2 →
        user_id p1 = user_id p2 → pk1 = pk2) ∧
     (∀ pk p, profiles s !! pk = Some p → is_Some (users s !! user_id p)) ∧
     (∀ pk p, profiles s !! pk = Some p → _status p ∈ ["untreated"; "accepted"; "rejected"])).
Proof.
  split; [apply well_formed_empty |]. split; [apply step_preserves_well_formed |].
  intros s (H11 & Horph & Hval)%reachable_is_well_formed.
  split; [exact H11 |]. split; [exact Horph |].
  intros pk p Hp. specialize (Hval pk p Hp).
  apply valid_status_cases in Hval. rewrite !elem_of_cons. tauto.
Qed.

(** X: on a store the manager produced, inspection and maintenance never
    raise.  Accepting or rejecting a stored profile returns (the user or
    the none value), and both sweeps run to their end. *)
Theorem reachable_never_raises env s :
  reachable s →
  (∀ pk profile site send_email message force,
     profiles s !! pk = Some profile →
     ∃ r s', accept_registration env pk profile site send_email message force s
               = (Ok r, s')) ∧
  (∀ pk profile site send_email message,
     profiles s !! pk = Some profile →
     ∃ r s', reject_registration env pk profile site send_email message s
               = (Ok r, s')) ∧
  (∃ s', delete_expired_users env s = (Ok tt, s')) ∧
  (∃ s', delete_rejected_users env s = (Ok tt, s')).
Proof.
  intros (H11 & Horph & _)%reachable_is_well_formed.
  split; [| split; [| split]].
  - intros pk profile site send_email message force Hp.
    destruct (Horph pk profile Hp) as [u Hu].
    destruct (decide (force = true ∨ _status profile = "untreated"
                      ∨ _status profile = "rejected")) as [Hc | Hc].
    + destruct (accept_registration_done env pk profile site send_email message
                  force s u Hu Hc) as (s1 & -> & _). by eexists _, _.
    + assert (force = false) as -> by (destruct force; tauto).
      rewrite (accept_registration_refused env pk profile site send_email message s u)
        by tauto.
      by eexists _, _.
  - intros pk profile site send_email message Hp.
    destruct (Horph pk profile Hp) as [u Hu].
    destruct (decide (_status profile = "untreated")) as [Hc | Hc].
    + destruct (reject_registration_done env pk profile site send_email message
                  s u Hu Hc) as (s1 & -> & _). by eexists _, _.
    + rewrite (reject_registration_refused env pk profile site send_email message s u)
        by done.
      by eexists _, _.
  - destruct (sweep_effect (delete_expired_users_body env) (expired_inactive env)
                (delete_expired_users_body_cases env) (expired_inactive_ext env) s H11
                (no_orphans_accepted_have_accounts s Horph)) as (s' & Hrun & _).
    by exists s'.
  - destruct (sweep_effect (delete_rejected_users_body env) rejected_inactive
                (delete_rejected_users_body_cases env) rejected_inactive_ext s H11
                (no_orphans_accepted_have_accounts s Horph)) as (s' & Hrun & _).
    by exists s'.
Qed.

(** ** Who activates an account *)

Lemma no_new_active_refl s : no_new_active s s.
Proof. intros uid u' Hu Ha. by exists u'. Qed.

Lemma no_new_active_subseteq s s' : users s' ⊆ users s → no_new_active s s'.
Proof. intros Hsub uid u' Hu Ha. exists u'. split; [by eapply lookup_weaken | done]. Qed.

Lemma no_new_active_insert s s' uid u u' :
  users s' = <[uid := u']> (users s) →
  (is_active u' = true → users s !! uid = Some u ∧ is_active u = true) →
  no_new_active s s'.
Proof.
  intros Hus Hact uid0 u0. rewrite Hus, lookup_insert. case_decide; subst.
  - intros [= <-] Ha. exists u. by apply Hact.
  - intros Hu0 Ha. by exists u0.
Qed.

(** X: only [activate_user] makes an account active.  After register,
    accept, reject or either sweep, whatever their arguments and outcome,
    every active account was an active account before the call. *)
Theorem only_activate_user_activates env s r s' :
  (∀ name mail site send_email r0,
     register env name mail site send_email s = (r0, s') → no_new_active s s') ∧
  (∀ pk profile site send_email message force r0,
     accept_registration env pk profile site send_email message force s = (r0, s') →
     no_new_active s s') ∧
  (∀ pk profile site send_email message r0,
     reject_registration env pk profile site send_email message s = (r0, s') →
     no_new_active s s') ∧
  (delete_expired_users env s = (r, s') → no_new_active s s') ∧
  (delete_rejected_users env s = (r, s') → no_new_active s s').
Proof.
  split; [| split; [| split; [| split]]].
  - intros name mail site send_email r0 Hrun.
    destruct (decide (username_taken name s)) as [Hn | Hn].
    { rewrite register_refused in Hrun by auto. injection Hrun as _ <-.
      apply no_new_active_refl. }
    destruct (decide (user_id_taken (fresh (dom (users s))) s)) as [Hp | Hp].
    { rewrite register_refused in Hrun by auto. injection Hrun as _ <-.
      apply no_new_active_refl. }
    destruct (register_done env name mail site send_email s Hn Hp)
      as (s1 & Hrun' & Hus & _).
    rewrite Hrun' in Hrun. injection Hrun as _ <-.
    eapply (no_new_active_insert _ _ _ (mkUser name mail UnusablePassword false 0));
      [exact Hus |]. simpl. discriminate.
  - intros pk profile site send_email message force r0 Hrun.
    destruct (users s !! user_id profile) as [u |] eqn:Hu.
    + destruct (decide (force = true ∨ _status profile = "untreated"
                        ∨ _status profile = "rejected")) as [Hc | Hc].
      * destruct (accept_registration_done env pk profile site send_email message
                    force s u Hu Hc) as (s1 & Hrun' & Hus & _).
        rewrite Hrun' in Hrun. injection Hrun as _ <-.
        eapply (no_new_active_insert _ _ _ u); [exact Hus |].
        unfold accept_user. by destruct (truthy _).
      * assert (force = false) as -> by (destruct force; tauto).
        rewrite (accept_registration_refused env pk profile site send_email message s u)
          in Hrun by tauto.
        injection Hrun as _ <-. apply no_new_active_refl.
    + rewrite accept_registration_no_account in Hrun by done.
      injection Hrun as _ <-. apply no_new_active_refl.
  - intros pk profile site send_email message r0 Hrun.
    destruct (users s !! user_id profile) as [u |] eqn:Hu.
    + destruct (decide (_status profile = "untreated")) as [Hc | Hc].
      * destruct (reject_registration_done env pk profile site send_email message
                    s u Hu Hc) as (s1 & Hrun' & Hus & _).
        rewrite Hrun' in Hrun. injection Hrun as _ <-.
        apply no_new_active_subseteq. by rewrite Hus.
      * rewrite (reject_registration_refused env pk profile site send_email message s u)
          in Hrun by done.
        injection Hrun as _ <-. apply no_new_active_refl.
    + rewrite reject_registration_no_account in Hrun by done.
      injection Hrun as _ <-. apply no_new_active_refl.
  - intros Hrun. destruct r as [[] | e].
    + revert Hrun. unfold delete_expired_users, transaction_atomic, objects_all. run.
      destruct (for_each _ _ s) as [[[] | e] s1] eqn:Hloop; intros [= <-].
      apply no_new_active_subseteq.
      eapply (sweep_loop_shrinks (delete_expired_users_body env) (expired_inactive env));
        [apply delete_expired_users_body_cases | exact Hloop].
    + apply (sweep_Raise (delete_expired_users_body env) (expired_inactive env)
               (delete_expired_users_body_cases env)) in Hrun as ->.
      apply no_new_active_refl.
  - intros Hrun. destruct r as [[] | e].
    + revert Hrun. unfold delete_rejected_users, transaction_atomic, objects_all. run.
      destruct (for_each _ _ s) as [[[] | e] s1] eqn:Hloop; intros [= <-].
      apply no_new_active_subseteq.
      eapply (sweep_loop_shrinks (delete_rejected_users_body env) rejected_inactive);
        [apply delete_rejected_users_body_cases | exact Hloop].
    + apply (sweep_Raise (delete_rejected_users_body env) rejected_inactive
               (delete_rejected_users_body_cases env)) in Hrun as ->.
      apply no_new_active_refl.
Qed.

(** ** How the operations compose *)

(** What a call of accept that returned a user did. *)
Lemma accept_registration_Some env pk profile site send_email message force s u' p' s' :
  accept_registration env pk profile site send_email message force s
    = (Ok (Some u', p'), s') →
  ∃ u,
    users s !! user_id profile = Some u ∧
    (force = true ∨ _status profile = "untreated" ∨ _status profile = "rejected") ∧
    p' = accept_profile env force profile u ∧
    u' = accept_user env force profile u ∧
    users s' = <[user_id profile := u']> (users s) ∧
    profiles s' = <[pk := p']> (profiles s) ∧
    outbox s' = outbox s ++ mails send_email (acceptance_mail env site message p' u').
Proof.
  intros Hrun.
  destruct (users s !! user_id profile) as [u |] eqn:Hu.
  - destruct (decide (force = true ∨ _status profile = "untreated"
                      ∨ _status profile = "rejected")) as [Hc | Hc].
    + destruct (accept_registration_done env pk profile site send_email message
                  force s u Hu Hc) as (s1 & Hrun' & ? & ? & ?).
      rewrite Hrun' in Hrun. injection Hrun as <- <- <-. by exists u.
    + assert (force = false) as -> by (destruct force; tauto).
      rewrite (accept_registration_refused env pk profile site send_email message s u)
        in Hrun by tauto.
      discriminate.
  - rewrite accept_registration_no_account in Hrun by done.
    case_bool_decide; discriminate.
Qed.

(** X: an accepted profile stays accepted unless forced.  After a call of
    accept that returned the user, at any later time and with any
    arguments, reject returns the none value and accept without force
    returns the none value, and neither changes the store or the
    instance. *)
Theorem accepted_is_refused_afterwards env pk profile site send_email message force
    s u' p' s' :
  accept_registration env pk profile site send_email message force s
    = (Ok (Some u', p'), s') →
  ∀ env' site' send_email' message',
    reject_registration env' pk p' site' send_email' message' s' = (Ok (None, p'), s') ∧
    accept_registration env' pk p' site' send_email' message' false s'
      = (Ok (None, p'), s').
Proof.
  intros (u & Hu & _ & -> & -> & Hus & _)%accept_registration_Some.
  destruct (accept_profile_fields env force profile u) as (Hid & Hst & _).
  assert (users s' !! user_id (accept_profile env force profile u)
          = Some (accept_user env force profile u)) as Hu'
    by (by rewrite Hid, Hus, lookup_insert_eq).
  intros env' site' send_email' message'. split.
  - eapply reject_registration_refused; [exact Hu' | by rewrite Hst].
  - eapply accept_registration_refused; [exact Hu' | by rewrite Hst | by rewrite Hst].
Qed.

(** X: a rejection can be taken back.  After reject returned the user of
    an untreated profile, accept without force on the rejected instance,
    at any time, returns the user, generates a key, stamps the join time
    to that time and saves the accepted row. *)
Theorem rejected_can_be_accepted env pk profile site send_email message s u :
  users s !! user_id profile = Some u →
  _status profile = "untreated" →
  ∃ p' s',
    reject_registration env pk profile site send_email message s
      = (Ok (Some u, p'), s') ∧
    _status p' = "rejected" ∧
    ∀ env' site' send_email' message',
      ∃ s'',
        accept_registration env' pk p' site' send_email' message' false s'
          = (Ok (Some (with_date_joined (datetime_now env') u),
                 mkProfile (user_id profile) "accepted"
                   (Some (generate_activation_key env' (username u)))), s'') ∧
        profiles s'' !! pk
          = Some (mkProfile (user_id profile) "accepted"
                    (Some (generate_activation_key env' (username u)))) ∧
        users s'' !! user_id profile = Some (with_date_joined (datetime_now env') u).
Proof.
  intros Hu Hst.
  destruct (reject_registration_done env pk profile site send_email message s u Hu Hst)
    as (s' & Hrun & Hus & Hps & _).
  eexists _, s'. split; [exact Hrun |]. split; [done |].
  intros env' site' send_email' message'.
  assert (users s' !! user_id (cleared "rejected" profile) = Some u) as Hu'
    by (by rewrite Hus).
  destruct (accept_registration_done env' pk (cleared "rejected" profile) site'
              send_email' message' false s' u Hu') as (s'' & Hrun' & Hus' & Hps' & _).
  { right; right. done. }
  assert (truthy (activation_key (cleared "rejected" profile)) = false) as Hk.
  { simpl. destruct (truthy (activation_key profile)) eqn:Hk; [done | exact Hk]. }
  unfold accept_profile, accept_user in *. rewrite Hk in *.
  exists s''. split; [exact Hrun' |].
  rewrite Hps', Hus'. simpl. by rewrite !lookup_insert_eq.
Qed.

(** X: the key handed out on acceptance activates the account within the
    window and not after it.  When accept generates the key (forced, or
    on an untreated or rejected profile without key) and no other
    profile is accepted with that key, then a later activation with the
    key succeeds and leaves the account active if it comes less than the
    activation window after the acceptance, and returns the none value
    without changing anything if it comes at or after the end of the
    window. *)
Theorem accept_then_activate env pk profile site send_email message force s u :
  users s !! user_id profile = Some u →
  force = true ∨
    (activation_key profile = None ∧
     (_status profile = "untreated" ∨ _status profile = "rejected")) →
  let key := generate_activation_key env (username u) in
  (∀ pk' q, profiles s !! pk' = Some q → pk' ≠ pk →
     ¬ (_status q = "accepted" ∧ activation_key q = Some key)) →
  ∃ s',
    accept_registration env pk profile site send_email message force s
      = (Ok (Some (with_date_joined (datetime_now env) u),
             mkProfile (user_id profile) "accepted" (Some key)), s') ∧
    ∀ env' site' pw send_email' message' no_profile_delete,
      (datetime_now env' <
         datetime_now env + timedelta (ACCOUNT_ACTIVATION_DAYS (settings env')) →
       ∃ user' s'',
         activate_user env' key site' pw send_email' message' no_profile_delete s'
           = (Ok (Some (user', chosen_password env' pw,
                        bool_decide (pw = None))), s'') ∧
         users s'' !! user_id profile = Some user' ∧
         is_active user' = true ∧
         password user' = RawPassword (chosen_password env' pw)) ∧
      (datetime_now env + timedelta (ACCOUNT_ACTIVATION_DAYS (settings env')) ≤
         datetime_now env' →
       activate_user env' key site' pw send_email' message' no_profile_delete s'
         = (Ok None, s')).
Proof.
  intros Hu Hc key Hothers.
  assert (force = true ∨ _status profile = "untreated" ∨ _status profile = "rejected")
    as Hc' by tauto.
  destruct (accept_registration_done env pk profile site send_email message force s u
              Hu Hc') as (s' & Hrun & Hus & Hps & _).
  assert (truthy (activation_key (if force then with_activation_key None profile
                                  else profile)) = false) as Hk.
  { destruct force; [done |]. destruct Hc as [? | [-> _]]; done. }
  unfold accept_profile, accept_user in *. rewrite Hk in *.
  exists s'. split; [exact Hrun |].
  set (p' := keyed env profile u) in *.
  set (u' := with_date_joined (datetime_now env) u) in *.
  assert (sole_match key s' pk p') as Hm.
  { split; [by rewrite Hps, lookup_insert_eq |]. split; [done |]. split; [done |].
    intros pk' q. rewrite Hps, lookup_insert. case_decide; [done |].
    intros Hq Hst Hkey. by destruct (Hothers pk' q Hq). }
  assert (users s' !! user_id p' = Some u') as Hu'
    by (by rewrite Hus, lookup_insert_eq).
  intros env' site' pw send_email' message' no_profile_delete. split.
  - intros Hopen.
    destruct (activate_user_done env' key site' pw send_email' message'
                no_profile_delete s' pk p' u' Hm Hu') as (s'' & Hrun' & Hus' & _).
    { unfold window_closed. subst u'. simpl. lia. }
    eexists _, s''. split; [exact Hrun' |].
    rewrite Hus'. simpl. by rewrite lookup_insert_eq.
  - intros Hclosed.
    eapply activate_user_expired; [exact Hm | exact Hu' |].
    unfold window_closed. subst u'. simpl. lia.
Qed.

(** X: how a profile reads right after its acceptance.  When accept
    generates the key (forced, so also on an expired profile, or on an
    untreated or rejected profile without key), the status getter, asked
    at the same time, answers 'accepted' if ACCOUNT_ACTIVATION_DAYS is
    positive and 'expired' if it is zero or negative. *)
Theorem status_right_after_accept env pk profile site send_email message force s u :
  users s !! user_id profile = Some u →
  force = true ∨
    (activation_key profile = None ∧
     (_status profile = "untreated" ∨ _status profile = "rejected")) →
  ∃ u' p' s',
    accept_registration env pk profile site send_email message force s
      = (Ok (Some u', p'), s') ∧
    _get_status env p' s'
      = (Ok (if bool_decide (ACCOUNT_ACTIVATION_DAYS (settings env) ≤ 0)
             then "expired" else "accepted"), s').
Proof.
  intros Hu Hc.
  assert (force = true ∨ _status profile = "untreated" ∨ _status profile = "rejected")
    as Hc' by tauto.
  destruct (accept_registration_done env pk profile site send_email message force s u
              Hu Hc') as (s' & Hrun & Hus & Hps & _).
  assert (truthy (activation_key (if force then with_activation_key None profile
                                  else profile)) = false) as Hk.
  { destruct force; [done |]. destruct Hc as [? | [-> _]]; done. }
  unfold accept_profile, accept_user in *. rewrite Hk in *.
  eexists _, _, s'. split; [exact Hrun |].
  erewrite _get_status_run by (by rewrite Hus, lookup_insert_eq).
  simpl. do 2 f_equal.
  unfold window_closed, timedelta. simpl.
  case_bool_decide as H1; case_bool_decide as H2; try done; exfalso.
  - destruct H1 as [_ H1]. lia.
  - apply H1. split; [done | lia].
Qed.

(** ** The entity's remaining methods *)

Lemma dict_status_lookup (st label : string) :
  dict (STATUS_LIST ++ [("expired", "Activation key has expired")]) !! st = Some label ↔
  (st, label) ∈ STATUS_LIST ++ [("expired", "Activation key has expired")].
Proof.
  unfold dict, STATUS_LIST. simpl.
  rewrite !lookup_insert_Some, lookup_empty, !elem_of_cons, elem_of_nil.
  split.
  - intros [[<- <-] | [? [[<- <-] | [? [[<- <-] | [? [[<- <-] | [? ?]]]]]]]];
      try done; tauto.
  - intros [[= -> ->] | [[= -> ->] | [[= -> ->] | [[= -> ->] | []]]]].
    + right. split; [done |]. right. split; [done |]. right. split; [done |]. by left.
    + right. split; [done |]. right. split; [done |]. by left.
    + right. split; [done |]. by left.
    + by left.
Qed.

(** X: [get_status_display].  With the account present the call returns
    without touching the store; what it returns is the label
    [STATUS_LIST] (extended by the 'expired' entry) gives to the status the
    getter reports, so 'Activation key has expired' for an accepted
    profile whose window has closed, the label of the persisted status
    otherwise, and the none value when the persisted status is not one of
    the listed ones. *)
Theorem get_status_display_spec env self s u :
  users s !! user_id self = Some u →
  ∃ o,
    get_status_display env self s = (Ok o, s) ∧
    (_status self = "accepted" ∧ window_closed env u →
       o = Some "Activation key has expired") ∧
    (¬ (_status self = "accepted" ∧ window_closed env u) →
       (∀ label, (_status self, label) ∈ STATUS_LIST → o = Some label) ∧
       (¬ valid_status (_status self) → _status self ≠ "expired" → o = None)).
Proof.
  intros Hu. unfold get_status_display. run.
  rewrite (_get_status_run _ _ _ _ Hu).
  eexists. split; [reflexivity |].
  case_bool_decide as Hc; (split; [intros Hc'; try done |]); intros Hc'; try done.
  split.
  - intros label Hin. apply dict_status_lookup. apply elem_of_app. by left.
  - intros Hnv Hne.
    destruct (dict _ !! _status self) as [label |] eqn:Hl; [| done].
    apply dict_status_lookup in Hl. apply elem_of_app in Hl as [Hl | Hl].
    + destruct Hnv. unfold valid_status. apply list_elem_of_fmap. by exists (_status self, label).
    + apply list_elem_of_singleton in Hl. injection Hl as Hs _. by destruct Hne.
Qed.

(** X: the status setter restores the key invariant.  Whatever the
    profile's status and key were (the key absent or a non-empty token),
    setting the status to any value returns a profile with that status
    whose key is present exactly when the value is 'accepted'; a value
    other than 'accepted' needs no account, clears the key and writes
    nothing. *)
Theorem set_status_establishes_invariant env self value s :
  activation_key self ≠ Some "" →
  (value = "accepted" → is_Some (users s !! user_id self)) →
  ∃ self' s',
    _set_status env self value s = (Ok self', s') ∧
    _status self' = value ∧
    user_id self' = user_id self ∧
    key_iff_accepted self' ∧
    profiles s' = profiles s ∧
    (value ≠ "accepted" → activation_key self' = None ∧ s' = s).
Proof.
  intros Hwf Hacc. unfold key_iff_accepted.
  destruct (decide (value = "accepted")) as [-> | Hv].
  - destruct (Hacc eq_refl) as [u Hu].
    destruct (truthy (activation_key self)) eqn:Hk.
    + rewrite (_set_status_keep _ _ _ Hk).
      apply truthy_true_Some in Hk as (v & Hv & _).
      eexists _, _. split; [done |]. simpl. rewrite Hv. by repeat split.
    + rewrite (_set_status_generate _ _ _ _ Hu Hk).
      eexists _, _. split; [done |]. simpl. by repeat split.
  - rewrite _set_status_other by done.
    eexists _, _. split; [done |]. unfold cleared. simpl.
    assert ((if truthy (activation_key self) then None else activation_key self) = None)
      as ->.
    { destruct (truthy (activation_key self)) eqn:Hk; [done |].
      by apply truthy_false_wf. }
    by repeat split.
Qed.

(** ** Mail *)

(** X: the acceptance mail carries the stored key.  An allowed
    acceptance of a profile whose account exists saves a profile with
    some key; when asked to send mail it hands exactly one mail to the
    mailer, addressed to the account, whose context holds that same key,
    the activation window and the inspector's message; when asked not
    to, it sends nothing. *)
Theorem acceptance_mail_carries_key env pk profile site send_email message force s u :
  users s !! user_id profile = Some u →
  force = true ∨ _status profile = "untreated" ∨ _status profile = "rejected" →
  ∃ u' p' key s',
    accept_registration env pk profile site send_email message force s
      = (Ok (Some u', p'), s') ∧
    profiles s' !! pk = Some p' ∧
    activation_key p' = Some key ∧
    outbox s' = outbox s ++
      (if send_email
       then [mkMail "acceptance" site (DEFAULT_FROM_EMAIL (settings env)) (email u)
               [ ("activation_key", VStr key);
                 ("expiration_days", VInt (ACCOUNT_ACTIVATION_DAYS (settings env)));
                 ("message", ctx_of_option message) ]]
       else []).
Proof.
  intros Hu Hc.
  destruct (accept_registration_done env pk profile site send_email message force s u
              Hu Hc) as (s' & Hrun & _ & Hps & Ho).
  destruct (accept_profile_fields env force profile u) as (_ & _ & Hk).
  destruct (activation_key (accept_profile env force profile u)) as [key |] eqn:Hkey;
    [| done].
  eexists _, _, key, s'. split; [exact Hrun |].
  split; [by rewrite Hps, lookup_insert_eq |]. split; [exact Hkey |].
  rewrite Ho. unfold mails, acceptance_mail. rewrite Hkey. simpl.
  assert (email (accept_user env force profile u) = email u) as ->
    by (unfold accept_user; by destruct (truthy _)).
  done.
Qed.

(** X: no mail unless asked.  Register, accept, reject and activate
    called with [send_email] false, whatever else they do, leave the
    outbox as it was, and the sweeps never send mail. *)
Theorem send_email_false_sends_nothing env s r s' :
  (∀ name mail site r0,
     register env name mail site false s = (r0, s') → outbox s' = outbox s) ∧
  (∀ pk profile site message force r0,
     accept_registration env pk profile site false message force s = (r0, s') →
     outbox s' = outbox s) ∧
  (∀ pk profile site message r0,
     reject_registration env pk profile site false message s = (r0, s') →
     outbox s' = outbox s) ∧
  (∀ key site pw message no_profile_delete r0,
     activate_user env key site pw false message no_profile_delete s = (r0, s') →
     outbox s' = outbox s) ∧
  (delete_expired_users env s = (r, s') → outbox s' = outbox s) ∧
  (delete_rejected_users env s = (r, s') → outbox s' = outbox s).
Proof.
  split; [| split; [| split; [| split; [| split]]]].
  - intros name mail site r0 Hrun.
    destruct (decide (username_taken name s)) as [Hn | Hn].
    { rewrite register_refused in Hrun by auto. by injection Hrun as _ <-. }
    destruct (decide (user_id_taken (fresh (dom (users s))) s)) as [Hp | Hp].
    { rewrite register_refused in Hrun by auto. by injection Hrun as _ <-. }
    destruct (register_done env name mail site false s Hn Hp) as (s1 & Hrun' & _ & _ & Ho).
    rewrite Hrun' in Hrun. injection Hrun as _ <-. by rewrite Ho, app_nil_r.
  - intros pk profile site message force r0 Hrun.
    destruct (users s !! user_id profile) as [u |] eqn:Hu.
    + destruct (decide (force = true ∨ _status profile = "untreated"
                        ∨ _status profile = "rejected")) as [Hc | Hc].
      * destruct (accept_registration_done env pk profile site false message
                    force s u Hu Hc) as (s1 & Hrun' & _ & _ & Ho).
        rewrite Hrun' in Hrun. injection Hrun as _ <-. by rewrite Ho, app_nil_r.
      * assert (force = false) as -> by (destruct force; tauto).
        rewrite (accept_registration_refused env pk profile site false message s u)
          in Hrun by tauto.
        by injection Hrun as _ <-.
    + rewrite accept_registration_no_account in Hrun by done.
      by injection Hrun as _ <-.
  - intros pk profile site message r0 Hrun.
    destruct (users s !! user_id profile) as [u |] eqn:Hu.
    + destruct (decide (_status profile = "untreated")) as [Hc | Hc].
      * destruct (reject_registration_done env pk profile site false message
                    s u Hu Hc) as (s1 & Hrun' & _ & _ & Ho).
        rewrite Hrun' in Hrun. injection Hrun as _ <-. by rewrite Ho, app_nil_r.
      * rewrite (reject_registration_refused env pk profile site false message s u)
          in Hrun by done.
        by injection Hrun as _ <-.
    + rewrite reject_registration_no_account in Hrun by done.
      by injection Hrun as _ <-.
  - intros key site pw message no_profile_delete r0 Hrun.
    apply activate_user_outcome in Hrun
      as [-> | (pk & profile & u & _ & _ & _ & _ & _ & _ & Ho)]; [done |].
    by rewrite Ho, app_nil_r.
  - unfold delete_expired_users, transaction_atomic, objects_all. run.
    destruct (for_each _ _ s) as [[[] | e] s1] eqn:Hloop; intros [= _ <-]; simpl;
      eapply (sweep_loop_outbox (delete_expired_users_body env) (expired_inactive env));
      try exact Hloop; apply delete_expired_users_body_cases.
  - unfold delete_rejected_users, transaction_atomic, objects_all. run.
    destruct (for_each _ _ s) as [[[] | e] s1] eqn:Hloop; intros [= _ <-]; simpl;
      eapply (sweep_loop_outbox (delete_rejected_users_body env) rejected_inactive);
      try exact Hloop; apply delete_rejected_users_body_cases.
Qed.

(** ** Registration and the errors of activation *)

Lemma no_orphans_fresh_user_id s :
  no_orphans s → ¬ user_id_taken (fresh (dom (users s))) s.
Proof.
  intros Horph (pk & p & Hp & Hid).
  destruct (Horph pk p Hp) as [u Hu]. rewrite Hid in Hu.
  assert (fresh (dom (users s)) ∈ dom (users s)) as Hin by (apply elem_of_dom; eauto).
  by apply is_fresh in Hin.
Qed.


(** X: a key shared by two accepted profiles cannot be used.  When two
    different profiles have persisted status 'accepted' and the given
    key, [activate_user] raises [MultipleObjectsReturned] (the lookup's
    exception, which the method does not catch) and changes nothing. *)
Theorem activate_user_duplicate_key env key site pw send_email message no_profile_delete
    s pk1 pk2 p1 p2 :
  pk1 ≠ pk2 →
  profiles s !! pk1 = Some p1 → _status p1 = "accepted" → activation_key p1 = Some key →
  profiles s !! pk2 = Some p2 → _status p2 = "accepted" → activation_key p2 = Some key →
  activate_user env key site pw send_email message no_profile_delete s
    = (Raise MultipleObjectsReturned, s).
Proof. intros. by eapply activate_user_multiple. Qed.

(** X: activation of an orphaned profile raises.  When the one profile
    with persisted status 'accepted' and the given key has no account,
    [activate_user] raises the account lookup's exception from the expiry
    test and changes nothing. *)
Theorem activate_user_orphan env key site pw send_email message no_profile_delete
    s pk profile :
  sole_match key s pk profile →
  users s !! user_id profile = None →
  activate_user env key site pw send_email message no_profile_delete s
    = (Raise UserDoesNotExist, s).
Proof. intros. by eapply activate_user_no_account. Qed.

(** X: an accepted but never activated account is swept once its window
    has closed, and not before.  On a well-formed store, after accept
    generated the key of a stored profile with an inactive account, a run
    of [delete_expired_users] at or after the end of the activation window
    deletes that profile and its account, and a run before the end of the
    window leaves both. *)
Theorem unactivated_account_is_swept env pk profile site send_email message force s u :
  well_formed s →
  profiles s !! pk = Some profile →
  users s !! user_id profile = Some u →
  is_active u = false →
  force = true ∨
    (activation_key profile = None ∧
     (_status profile = "untreated" ∨ _status profile = "rejected")) →
  ∃ u' p' s',
    accept_registration env pk profile site send_email message force s
      = (Ok (Some u', p'), s') ∧
    ∀ env',
      (datetime_now env + timedelta (ACCOUNT_ACTIVATION_DAYS (settings env')) ≤
         datetime_now env' →
       ∃ s'', delete_expired_users env' s' = (Ok tt, s'') ∧
              profiles s'' !! pk = None ∧ users s'' !! user_id profile = None) ∧
      (datetime_now env' <
         datetime_now env + timedelta (ACCOUNT_ACTIVATION_DAYS (settings env')) →
       ∃ s'', delete_expired_users env' s' = (Ok tt, s'') ∧
              profiles s'' !! pk = Some p' ∧ users s'' !! user_id profile = Some u').
Proof.
  intros Hwf Hp Hu Hinactive Hc.
  assert (force = true ∨ _status profile = "untreated" ∨ _status profile = "rejected")
    as Hc' by tauto.
  destruct (accept_registration_done env pk profile site send_email message force s u
              Hu Hc') as (s' & Hrun & Hus & Hps & _).
  assert (truthy (activation_key (if force then with_activation_key None profile
                                  else profile)) = false) as Hk.
  { destruct force; [done |]. destruct Hc as [? | [-> _]]; done. }
  unfold accept_profile, accept_user in *. rewrite Hk in *.
  set (p' := keyed env profile u) in *.
  set (u' := with_date_joined (datetime_now env) u) in *.
  assert (well_formed s') as (H11 & Horph & _)
    by (by eapply accept_preserves_well_formed).
  assert (profiles s' !! pk = Some p') as Hp' by (by rewrite Hps, lookup_insert_eq).
  assert (users s' !! user_id p' = Some u') as Hu' by (by rewrite Hus, lookup_insert_eq).
  exists u', p', s'. split; [exact Hrun |].
  intros env'.
  destruct (sweep_effect (delete_expired_users_body env') (expired_inactive env')
              (delete_expired_users_body_cases env') (expired_inactive_ext env') s' H11
              (no_orphans_accepted_have_accounts s' Horph))
    as (s'' & Hsweep & _ & Hrows & _).
  destruct (Hrows pk p' Hp') as [Hd Hn].
  split.
  - intros Hclosed. exists s''. split; [exact Hsweep |].
    apply Hd. split; [done |]. exists u'. split; [exact Hu' |].
    split; [| done]. unfold window_closed. subst u'. simpl. lia.
  - intros Hopen. exists s''. split; [exact Hsweep |].
    destruct Hn as [Hkept Huser].
    + intros (_ & u0 & Hu0 & Hw & _).
      assert (u0 = u') as -> by congruence.
      unfold window_closed in Hw. subst u'. simpl in Hw. lia.
    + split; [exact Hkept |]. simpl in Huser. by rewrite Huser.
Qed.

(** ** The further properties on sample data *)

(** Read a lookup in a sample table that holds one row. *)
Ltac sample_row H :=
  unfold store_untreated, store_accepted, store_orphan_rejected,
    store_orphan_accepted in H;
  simpl in H; apply lookup_singleton_Some in H as [<- <-].

Lemma one_to_one_singleton us pk p out : one_to_one (mkStore us {[pk := p]} out).
Proof.
  intros pk1 pk2 p1 p2 H1 H2 _. simpl in *.
  apply lookup_singleton_Some in H1 as [<- _].
  by apply lookup_singleton_Some in H2 as [<- _].
Qed.

Lemma accepted_have_accounts_store_accepted : accepted_have_accounts store_accepted.
Proof.
  intros pk p Hp _. sample_row Hp. by exists alice.
Qed.

Lemma reachable_store_untreated : reachable store_untreated.
Proof.
  apply rtc_once.
  apply (step_register env_epoch "alice" "alice@example.com" "site" false empty_store
           (Ok (1%positive, alice))).
  vm_compute. reflexivity.
Qed.

Lemma accept_store_untreated :
  accept_registration env0 1 untreated_profile "site" true None false store_untreated
    = (Ok (Some (with_date_joined 1000 alice), accepted_profile),
       mkStore {[1%positive := with_date_joined 1000 alice]}
               {[1%positive := accepted_profile]}
               [acceptance_mail env0 "site" None accepted_profile alice]).
Proof. vm_compute. reflexivity. Qed.

(** The expiry sweep at the end of alice's window. *)
Lemma delete_expired_users_effect_witness :
  ∃ s',
    delete_expired_users env_late store_accepted = (Ok tt, s') ∧
    outbox s' = outbox store_accepted ∧
    (∀ pk p, profiles store_accepted !! pk = Some p →
       (expired_inactive env_late store_accepted p →
          profiles s' !! pk = None ∧ users s' !! user_id p = None) ∧
       (¬ expired_inactive env_late store_accepted p →
          profiles s' !! pk = Some p ∧
          users s' !! user_id p = users store_accepted !! user_id p)) ∧
    (∀ pk, profiles store_accepted !! pk = None → profiles s' !! pk = None) ∧
    (∀ uid, (∀ pk p, profiles store_accepted !! pk = Some p → user_id p ≠ uid) →
       users s' !! uid = users store_accepted !! uid).
Proof.
  apply (delete_expired_users_effect env_late store_accepted).
  - apply one_to_one_singleton.
  - exact accepted_have_accounts_store_accepted.
Defined.

(** The rejection sweep over a rejected orphan. *)
Lemma delete_rejected_users_effect_witness :
  ∃ s',
    delete_rejected_users env0 store_orphan_rejected = (Ok tt, s') ∧
    outbox s' = outbox store_orphan_rejected ∧
    (∀ pk p, profiles store_orphan_rejected !! pk = Some p →
       (rejected_inactive store_orphan_rejected p →
          profiles s' !! pk = None ∧ users s' !! user_id p = None) ∧
       (¬ rejected_inactive store_orphan_rejected p →
          profiles s' !! pk = Some p ∧
          users s' !! user_id p = users store_orphan_rejected !! user_id p)) ∧
    (∀ pk, profiles store_orphan_rejected !! pk = None → profiles s' !! pk = None) ∧
    (∀ uid, (∀ pk p, profiles store_orphan_rejected !! pk = Some p → user_id p ≠ uid) →
       users s' !! uid = users store_orphan_rejected !! uid).
Proof.
  apply (delete_rejected_users_effect env0 store_orphan_rejected).
  - apply one_to_one_singleton.
  - intros pk p Hp Hst. sample_row Hp. discriminate Hst.
Defined.

Lemma delete_rejected_users_accepted_orphan_witness :
  delete_rejected_users env0 store_orphan_accepted
    = (Raise UserDoesNotExist, store_orphan_accepted).
Proof.
  apply (delete_rejected_users_accepted_orphan env0 store_orphan_accepted 1
           accepted_profile); reflexivity.
Defined.

Lemma reachable_never_raises_witness :
  reachable store_untreated ∧
  (∀ pk profile site send_email message force,
     profiles store_untreated !! pk = Some profile →
     ∃ r s', accept_registration env0 pk profile site send_email message force
               store_untreated = (Ok r, s')) ∧
  (∀ pk profile site send_email message,
     profiles store_untreated !! pk = Some profile →
     ∃ r s', reject_registration env0 pk profile site send_email message
               store_untreated = (Ok r, s')) ∧
  (∃ s', delete_expired_users env0 store_untreated = (Ok tt, s')) ∧
  (∃ s', delete_rejected_users env0 store_untreated = (Ok tt, s')).
Proof.
  split; [exact reachable_store_untreated |].
  exact (reachable_never_raises env0 store_untreated reachable_store_untreated).
Defined.

Lemma accepted_is_refused_afterwards_witness :
  accept_registration env0 1 untreated_profile "site" true None false store_untreated
    = (Ok (Some (with_date_joined 1000 alice), accepted_profile),
       mkStore {[1%positive := with_date_joined 1000 alice]}
               {[1%positive := accepted_profile]}
               [acceptance_mail env0 "site" None accepted_profile alice]) ∧
  ∀ env' site' send_email' message',
    let s' := mkStore {[1%positive := with_date_joined 1000 alice]}
                      {[1%positive := accepted_profile]}
                      [acceptance_mail env0 "site" None accepted_profile alice] in
    reject_registration env' 1 accepted_profile site' send_email' message' s'
      = (Ok (None, accepted_profile), s') ∧
    accept_registration env' 1 accepted_profile site' send_email' message' false s'
      = (Ok (None, accepted_profile), s').
Proof.
  split; [exact accept_store_untreated |].
  exact (accepted_is_refused_afterwards env0 1 untreated_profile "site" true None false
           store_untreated _ _ _ accept_store_untreated).
Defined.

Lemma rejected_can_be_accepted_witness :
  ∃ p' s',
    reject_registration env0 1 untreated_profile "site" true None store_untreated
      = (Ok (Some alice, p'), s') ∧
    _status p' = "rejected" ∧
    ∀ env' site' send_email' message',
      ∃ s'',
        accept_registration env' 1 p' site' send_email' message' false s'
          = (Ok (Some (with_date_joined (datetime_now env') alice),
                 mkProfile (user_id untreated_profile) "accepted"
                   (Some (generate_activation_key env' (username alice)))), s'') ∧
        profiles s'' !! 1%positive
          = Some (mkProfile (user_id untreated_profile) "accepted"
                    (Some (generate_activation_key env' (username alice)))) ∧
        users s'' !! user_id untreated_profile
          = Some (with_date_joined (datetime_now env') alice).
Proof.
  apply (rejected_can_be_accepted env0 1 untreated_profile "site" true None
           store_untreated alice); reflexivity.
Defined.

Lemma accept_then_activate_witness :
  ∃ s',
    accept_registration env0 1 untreated_profile "site" true None false store_untreated
      = (Ok (Some (with_date_joined (datetime_now env0) alice),
             mkProfile (user_id untreated_profile) "accepted"
               (Some (generate_activation_key env0 (username alice)))), s') ∧
    ∀ env' site' pw send_email' message' no_profile_delete,
      (datetime_now env' <
         datetime_now env0 + timedelta (ACCOUNT_ACTIVATION_DAYS (settings env')) →
       ∃ user' s'',
         activate_user env' (generate_activation_key env0 (username alice)) site' pw
           send_email' message' no_profile_delete s'
           = (Ok (Some (user', chosen_password env' pw, bool_decide (pw = None))), s'') ∧
         users s'' !! user_id untreated_profile = Some user' ∧
         is_active user' = true ∧
         password user' = RawPassword (chosen_password env' pw)) ∧
      (datetime_now env0 + timedelta (ACCOUNT_ACTIVATION_DAYS (settings env')) ≤
         datetime_now env' →
       activate_user env' (generate_activation_key env0 (username alice)) site' pw
         send_email' message' no_profile_delete s'
         = (Ok None, s')).
Proof.
  apply (accept_then_activate env0 1 untreated_profile "site" true None false
           store_untreated alice).
  - reflexivity.
  - right. split; [reflexivity | left; reflexivity].
  - intros pk' q Hq Hne. sample_row Hq. done.
Defined.

Lemma status_right_after_accept_witness :
  ∃ u' p' s',
    accept_registration env0 1 untreated_profile "site" true None false store_untreated
      = (Ok (Some u', p'), s') ∧
    _get_status env0 p' s'
      = (Ok (if bool_decide (ACCOUNT_ACTIVATION_DAYS (settings env0) ≤ 0)
             then "expired" else "accepted"), s').
Proof.
  apply (status_right_after_accept env0 1 untreated_profile "site" true None false
           store_untreated alice).
  - reflexivity.
  - right. split; [reflexivity | left; reflexivity].
Defined.

Lemma get_status_display_spec_witness :
  ∃ o,
    get_status_display env_late accepted_profile store_accepted = (Ok o, store_accepted) ∧
    (_status accepted_profile = "accepted" ∧ window_closed env_late alice →
       o = Some "Activation key has expired") ∧
    (¬ (_status accepted_profile = "accepted" ∧ window_closed env_late alice) →
       (∀ label, (_status accepted_profile, label) ∈ STATUS_LIST → o = Some label) ∧
       (¬ valid_status (_status accepted_profile) →
        _status accepted_profile ≠ "expired" → o = None)).
Proof.
  apply (get_status_display_spec env_late accepted_profile store_accepted alice).
  reflexivity.
Defined.

Lemma set_status_establishes_invariant_witness :
  ∃ self' s',
    _set_status env0 accepted_profile "rejected" store_accepted = (Ok self', s') ∧
    _status self' = "rejected" ∧
    user_id self' = user_id accepted_profile ∧
    key_iff_accepted self' ∧
    profiles s' = profiles store_accepted ∧
    ("rejected" ≠ "accepted" → activation_key self' = None ∧ s' = store_accepted).
Proof.
  apply (set_status_establishes_invariant env0 accepted_profile "rejected" store_accepted).
  - discriminate.
  - discriminate.
Defined.

Lemma acceptance_mail_carries_key_witness :
  ∃ u' p' key s',
    accept_registration env0 1 untreated_profile "site" true (Some "welcome") false
      store_untreated = (Ok (Some u', p'), s') ∧
    profiles s' !! 1%positive = Some p' ∧
    activation_key p' = Some key ∧
    outbox s' = outbox store_untreated ++
      (if true
       then [mkMail "acceptance" "site" (DEFAULT_FROM_EMAIL (settings env0)) (email alice)
               [ ("activation_key", VStr key);
                 ("expiration_days", VInt (ACCOUNT_ACTIVATION_DAYS (settings env0)));
                 ("message", ctx_of_option (Some "welcome")) ]]
       else []).
Proof.
  apply (acceptance_mail_carries_key env0 1 untreated_profile "site" true
           (Some "welcome") false store_untreated alice).
  - reflexivity.
  - right; left. reflexivity.
Defined.



Lemma activate_user_duplicate_key_witness :
  activate_user env0 "key-alice" "site" None true None false store_duplicate_key
    = (Raise MultipleObjectsReturned, store_duplicate_key).
Proof.
  apply (activate_user_duplicate_key env0 "key-alice" "site" None true None false
           store_duplicate_key 1 2 accepted_profile
           (mkProfile 2 "accepted" (Some "key-alice"))); done.
Defined.

Lemma sole_match_store_orphan_accepted :
  sole_match "key-alice" store_orphan_accepted 1 accepted_profile.
Proof. apply sole_match_filter. vm_compute. reflexivity. Qed.

Lemma activate_user_orphan_witness :
  activate_user env0 "key-alice" "site" None true None false store_orphan_accepted
    = (Raise UserDoesNotExist, store_orphan_accepted).
Proof.
  apply (activate_user_orphan env0 "key-alice" "site" None true None false
           store_orphan_accepted 1 accepted_profile).
  - exact sole_match_store_orphan_accepted.
  - reflexivity.
Defined.

Lemma unactivated_account_is_swept_witness :
  ∃ u' p' s',
    accept_registration env0 1 untreated_profile "site" true None false store_untreated
      = (Ok (Some u', p'), s') ∧
    ∀ env',
      (datetime_now env0 + timedelta (ACCOUNT_ACTIVATION_DAYS (settings env')) ≤
         datetime_now env' →
       ∃ s'', delete_expired_users env' s' = (Ok tt, s'') ∧
              profiles s'' !! 1%positive = None ∧
              users s'' !! user_id untreated_profile = None) ∧
      (datetime_now env' <
         datetime_now env0 + timedelta (ACCOUNT_ACTIVATION_DAYS (settings env')) →
       ∃ s'', delete_expired_users env' s' = (Ok tt, s'') ∧
              profiles s'' !! 1%positive = Some p' ∧
              users s'' !! user_id untreated_profile = Some u').
Proof.
  apply (unactivated_account_is_swept env0 1 untreated_profile "site" true None false
           store_untreated alice).
  - exact (reachable_is_well_formed _ reachable_store_untreated).
  - reflexivity.
  - reflexivity.
  - reflexivity.
  - right. split; [reflexivity | left; reflexivity].
Defined.
